(** * sun_dimmer: the control loop of [sun_dimmer.py], embedded and verified

    The Python program keeps the display brightness in step with the sun's
    altitude.  This development embeds its core -- the brightness curve, the
    manual-change detector, the two logging gates, actuation and the polling
    loop of [SunDimmer.run] -- and proves the properties its specification
    states about them.

    Numbers.  The program computes with Python [int]s and [float]s mixed
    freely (JSON configuration values, pysolar altitudes, percentages read
    back from the devices).  They are embedded as rationals [Q] with exact
    arithmetic: an [int] is [inject_Z], [/] is true division, [int(x)] is
    truncation towards zero.  Rounding of binary64 is outside this model.
    Where rounding decides a property, the curve and the subtraction of the
    detector are computed in binary64 itself ([Binary64]); the sample values
    of the specification come out the same there.

    Effects.  Everything the program does to the outside world (log lines,
    device commands, state-file writes, sleeps) is recorded as a trace of
    [event]s; everything it learns from the outside world (device readback,
    pysolar, the clock, command outcomes) is supplied per tick by a
    [TickEnv]. *)

From Stdlib Require Import QArith Qabs Qround Lqa ZArith List String Bool Lia Floats.
Import ListNotations.

Local Open Scope Q_scope.

(** ** Python numbers as rationals *)

Module PyNum.

(** [a < b] as a boolean: the negation of [b <= a]. *)
Definition Qltb (a b : Q) : bool := negb (Qle_bool b a).

(** [int(x)]: truncation towards zero. *)
Definition py_int (x : Q) : Z := Z.quot (Qnum x) (Zpos (Qden x)).

(** [min(a, b)]: the first argument unless the second is strictly less. *)
Definition py_min (a b : Q) : Q := if Qltb b a then b else a.

(** [max(a, b)]: the first argument unless the second is strictly greater. *)
Definition py_max (a b : Q) : Q := if Qltb a b then b else a.

(** Truthiness of a number: zero is falsy. *)
Definition truthy (x : Q) : bool := negb (Qeq_bool x 0).

(** A rational that is a whole number. *)
Definition is_integer (x : Q) : bool := Qeq_bool x (inject_Z (py_int x)).

End PyNum.
Import PyNum.

(** ** Exceptions *)

(** The two classes of exception the source distinguishes: [except Exception]
    does not catch [KeyboardInterrupt]; a bare [except:] catches both. *)
Inductive exn : Type :=
| KeyboardInterrupt
| Exception (what : string).

(** The outcome of a computation that may raise. *)
Inductive result (A : Type) : Type :=
| Ok (a : A)
| Raise (e : exn).
Arguments Ok {A} a.
Arguments Raise {A} e.

(** [a / b]: true division; a zero divisor raises [ZeroDivisionError]. *)
Definition py_truediv (a b : Q) : result Q :=
  if Qeq_bool b 0 then Raise (Exception "ZeroDivisionError") else Ok (a / b).

(** ** Configuration and persisted state *)

Record LocationConfig : Type := {
  manual_latitude : option Q;
  manual_longitude : option Q;
  use_auto_location : bool
}.

Record BrightnessConfig : Type := {
  min_brightness : Q;
  max_brightness : Q;
  sun_down_alt : Q;
  sun_high_alt : Q;
  manual_change_tolerance : Q
}.

Record SystemConfig : Type := {
  update_interval : Q;
  log_before_change_minutes : Q
}.

Record Device : Type := {
  dev_type : string;
  dev_id : option Z;
  dev_name : string
}.

Record Config : Type := {
  location : LocationConfig;
  brightness : BrightnessConfig;
  system : SystemConfig;
  devices : list Device
}.

(** [self.state]: the dictionary that [save_state] dumps to the state file. *)
Record State : Type := {
  user_offset : Q;
  last_brightness : Q
}.

Definition DEFAULT_CONFIG : Config := {|
  location := {| manual_latitude := Some (523821038 # 10000000);
                 manual_longitude := Some (169141764 # 10000000);
                 use_auto_location := false |};
  brightness := {| min_brightness := 1;
                   max_brightness := 100;
                   sun_down_alt := -6;
                   sun_high_alt := 30;
                   manual_change_tolerance := 2 |};
  system := {| update_interval := 300;
               log_before_change_minutes := 15 |};
  devices := [ {| dev_type := "laptop"; dev_id := None; dev_name := "Ekran laptopa" |};
               {| dev_type := "monitor"; dev_id := Some 1%Z; dev_name := "Monitor Dell" |} ]
|}.

(** The state [load_state] returns when there is no state file. *)
Definition DEFAULT_STATE : State := {| user_offset := 0; last_brightness := 50 |}.

(** ** The brightness curve *)

(** [SunDimmer.calculate_brightness_from_sun]. *)
Definition calculate_brightness_from_sun (cfg : Config) (altitude : Q) : result Q :=
  let brightness_config := brightness cfg in
  if Qle_bool altitude (sun_down_alt brightness_config) then
    Ok (min_brightness brightness_config)
  else if Qle_bool (sun_high_alt brightness_config) altitude then
    Ok (max_brightness brightness_config)
  else
    let sun_range := sun_high_alt brightness_config - sun_down_alt brightness_config in
    let brightness_range := max_brightness brightness_config - min_brightness brightness_config in
    match py_truediv (altitude - sun_down_alt brightness_config) sun_range with
    | Raise e => Raise e
    | Ok sun_progress =>
        Ok (min_brightness brightness_config + sun_progress * brightness_range)
    end.

(** The curve as the specification words it (BrightnessCurve, three segments). *)
Definition BrightnessCurve_target (cfg : Config) (altitude : Q) : Q :=
  let b := brightness cfg in
  if Qle_bool altitude (sun_down_alt b) then min_brightness b
  else if Qle_bool (sun_high_alt b) altitude then max_brightness b
  else min_brightness b
       + (altitude - sun_down_alt b) / (sun_high_alt b - sun_down_alt b)
         * (max_brightness b - min_brightness b).


(** ** The curve in binary64 *)

(** [calculate_brightness_from_sun] and the test of [brightness_will_change]
    over IEEE 754 binary64, the arithmetic of a Python [float].  The numbers
    of the configuration are taken as the floats of the same value, which is
    what Python makes of an [int] below 2^53 that meets a [float]. *)
Module Binary64.

Definition calculate_brightness_from_sun
  (min_brightness max_brightness sun_down_alt sun_high_alt altitude : float) : float :=
  if (altitude <=? sun_down_alt)%float then min_brightness
  else if (sun_high_alt <=? altitude)%float then max_brightness
  else
    let sun_range := (sun_high_alt - sun_down_alt)%float in
    let brightness_range := (max_brightness - min_brightness)%float in
    let sun_progress := ((altitude - sun_down_alt) / sun_range)%float in
    (min_brightness + sun_progress * brightness_range)%float.

Definition brightness_will_change (last_logged_brightness : option float)
  (final_brightness : float) : bool :=
  match last_logged_brightness with
  | None => true
  | Some logged => (0.5 <? abs (final_brightness - logged))%float
  end.

End Binary64.

(** ** The outside world *)

(** What a call into the outside world (a subprocess, pysolar, geocoder, the
    file system) comes back with: a value, or an ordinary exception.  The
    constructor of [SunDimmer] rebinds SIGINT to its own handler, so the
    interpreter raises no [KeyboardInterrupt] of its own accord. *)
Inductive outcome (A : Type) : Type :=
| Done (a : A)
| Failed (what : string).
Arguments Done {A} a.
Arguments Failed {A} what.

(** A latitude or longitude as [get_location] may return it: [None], a
    number, or (second component of [get_location_ip] when the lookup is not
    [ok]) the tuple [(None, None)]. *)
Inductive pyval : Type :=
| PyNone
| PyNumber (x : Q)
| PyNoneNone.

Definition of_option (o : option Q) : pyval :=
  match o with
  | Some x => PyNumber x
  | None => PyNone
  end.

(** Truthiness, as [not lat] tests it. *)
Definition truthy_val (v : pyval) : bool :=
  match v with
  | PyNone => false
  | PyNumber x => truthy x
  | PyNoneNone => true
  end.

(** The answer of [geocoder.ip('me')]. *)
Record GeoResponse : Type := {
  ok : bool;
  latlng : list Q
}.

(** What the outside world supplies before the loop starts. *)
Record StartEnv : Type := {
  (** [where-am-i] ran and both regular expressions matched: the two numbers *)
  senv_geoclue : outcome (option (Q * Q));
  senv_geocoder : outcome GeoResponse;
  (** the readback command of the first device and its parsed percentage *)
  senv_read : outcome (option Z)
}.

(** What the outside world supplies during one tick of the loop. *)
Record TickEnv : Type := {
  env_read : outcome (option Z);
  (** [datetime.now()] in [get_sun_altitude], as a timestamp in seconds *)
  env_now : Q;
  (** [datetime.now()] in [will_brightness_change_soon] *)
  env_now_soon : Q;
  (** whether the set command of a device runs to a zero exit status *)
  env_write : Device -> outcome unit;
  (** whether writing the state file works *)
  env_save : outcome unit
}.

(** ** The trace *)

Inductive level : Type := INFO | SUCCESS | WARN | ERROR.

(** The log lines of the program, by content; colours and the time stamp are
    left out. *)
Inductive message : Type :=
| MsgDevices (names : list string)
| MsgGeoclueAttempt
| MsgGeoclueUnavailable
| MsgLocationFailed
| MsgLocation (lat lon : Q)
| MsgReadError (name : string) (what : string)
| MsgManualChange (new_offset : Z)
| MsgOffsetChanged (old_offset new_offset : Z)
| MsgSetBrightness (percentage : Q) (altitude : option Q) (offset : option Z)
| MsgDeviceError (name : string) (what : string)
| MsgSaveError (what : string)
| MsgUnexpected (what : string).

Inductive event : Type :=
| Log (lv : level) (msg : message)
| Sleep (seconds : Q)
(** [save_state] called on [self.state]; the write itself may fail *)
| SaveState (st : State)
(** [subprocess.run] started on the set command of a device; it may fail *)
| Command (d : Device) (percentage : Q).

(** ** Program state *)

(** The fields of the [SunDimmer] object that change, and the two local
    variables of [run] that live across iterations. *)
Record Mem : Type := {
  self_state : State;
  self_running : bool;
  self_last_logged_brightness : option Q;
  last_set_brightness : Q;
  is_first_run : bool
}.

Definition with_state (st : State) (m : Mem) : Mem :=
  {| self_state := st;
     self_running := self_running m;
     self_last_logged_brightness := self_last_logged_brightness m;
     last_set_brightness := last_set_brightness m;
     is_first_run := is_first_run m |}.

Definition with_last_logged (v : option Q) (m : Mem) : Mem :=
  {| self_state := self_state m;
     self_running := self_running m;
     self_last_logged_brightness := v;
     last_set_brightness := last_set_brightness m;
     is_first_run := is_first_run m |}.

Definition with_last_set (v : Q) (m : Mem) : Mem :=
  {| self_state := self_state m;
     self_running := self_running m;
     self_last_logged_brightness := self_last_logged_brightness m;
     last_set_brightness := v;
     is_first_run := is_first_run m |}.

Definition with_first_run (b : bool) (m : Mem) : Mem :=
  {| self_state := self_state m;
     self_running := self_running m;
     self_last_logged_brightness := self_last_logged_brightness m;
     last_set_brightness := last_set_brightness m;
     is_first_run := b |}.

(** The object as [__init__] leaves it, given the loaded state.  The two
    locals get their values in [run]. *)
Definition init_mem (st : State) : Mem :=
  {| self_state := st;
     self_running := true;
     self_last_logged_brightness := None;
     last_set_brightness := 0;
     is_first_run := true |}.

(** ** The monad of the program: state, trace and exceptions *)

Module Prog.

Definition M (A : Type) : Type := Mem -> result A * Mem * list event.

Definition ret {A} (a : A) : M A := fun m => (Ok a, m, []).

Definition bind {A B} (c : M A) (k : A -> M B) : M B :=
  fun m =>
    match c m with
    | (Ok a, m1, t1) =>
        match k a m1 with
        | (r, m2, t2) => (r, m2, t1 ++ t2)
        end
    | (Raise e, m1, t1) => (Raise e, m1, t1)
    end.

Definition raise {A} (e : exn) : M A := fun m => (Raise e, m, []).

Definition get : M Mem := fun m => (Ok m, m, []).

Definition modify (f : Mem -> Mem) : M unit := fun m => (Ok tt, f m, []).

Definition emit (e : event) : M unit := fun m => (Ok tt, m, [e]).

(** A call into the outside world. *)
Definition call {A} (o : outcome A) : M A :=
  match o with
  | Done a => ret a
  | Failed what => raise (Exception what)
  end.

(** A pure computation that may raise. *)
Definition lift {A} (r : result A) : M A :=
  match r with
  | Ok a => ret a
  | Raise e => raise e
  end.

(** [try: c  except Exception as e: h e] *)
Definition try_except_Exception {A} (c : M A) (h : string -> M A) : M A :=
  fun m =>
    match c m with
    | (Raise (Exception what), m1, t1) =>
        match h what m1 with
        | (r, m2, t2) => (r, m2, t1 ++ t2)
        end
    | other => other
    end.

(** [try: c  except: h] *)
Definition try_except {A} (c : M A) (h : M A) : M A :=
  fun m =>
    match c m with
    | (Raise _, m1, t1) =>
        match h m1 with
        | (r, m2, t2) => (r, m2, t1 ++ t2)
        end
    | other => other
    end.

End Prog.
Import Prog.

Notation "x <- c ;; k" := (bind c (fun x => k))
  (at level 61, c at next level, right associativity).
Notation "c ;; k" := (bind c (fun _ => k))
  (at level 61, right associativity).

(** The trace, final state and result of running a program. *)
Definition trace_of {A} (x : result A * Mem * list event) : list event := snd x.
Definition mem_of {A} (x : result A * Mem * list event) : Mem := snd (fst x).
Definition result_of {A} (x : result A * Mem * list event) : result A := fst (fst x).

(** The device commands in a trace. *)
Fixpoint commands (t : list event) : list (Device * Q) :=
  match t with
  | [] => []
  | Command d p :: t' => (d, p) :: commands t'
  | _ :: t' => commands t'
  end.

(** The sleeps in a trace. *)
Fixpoint sleeps (t : list event) : list Q :=
  match t with
  | [] => []
  | Sleep s :: t' => s :: sleeps t'
  | _ :: t' => sleeps t'
  end.

(** The percentages announced in a trace by the log line of [set_brightness]. *)
Fixpoint announcements (t : list event) : list Q :=
  match t with
  | [] => []
  | Log _ (MsgSetBrightness p _ _) :: t' => p :: announcements t'
  | _ :: t' => announcements t'
  end.

(** The states written to the state file in a trace. *)
Fixpoint saves (t : list event) : list State :=
  match t with
  | [] => []
  | SaveState st :: t' => st :: saves t'
  | _ :: t' => saves t'
  end.

(** A trace that sends no command, sleeps for no time, writes no state and
    announces no brightness. *)
Definition quiet (t : list event) : Prop :=
  commands t = [] /\ sleeps t = [] /\ saves t = [] /\ announcements t = [].

(** ** The methods of [SunDimmer] *)

(** [self.log_message(level, message)] *)
Definition log_message (lv : level) (msg : message) : M unit := emit (Log lv msg).

(** [time.sleep(seconds)]: a negative length raises [ValueError]. *)
Definition time_sleep (seconds : Q) : M unit :=
  if Qltb seconds 0 then raise (Exception "ValueError") else emit (Sleep seconds).

(** [SunDimmer.save_state] *)
Definition save_state (save : outcome unit) : M unit :=
  try_except_Exception
    (m <- get ;;
     emit (SaveState (self_state m)) ;;
     call save)
    (fun what => log_message ERROR (MsgSaveError what)).

(** [SunDimmer.get_location_geoclue] *)
Definition get_location_geoclue (senv : StartEnv) : M (pyval * pyval) :=
  try_except
    (matches <- call (senv_geoclue senv) ;;
     match matches with
     | Some (lat, lon) => ret (PyNumber lat, PyNumber lon)
     | None => ret (PyNone, PyNone)
     end)
    (ret (PyNone, PyNone)).

(** [xs[i]]: an index out of range raises [IndexError]. *)
Definition py_index (xs : list Q) (i : nat) : result Q :=
  match nth_error xs i with
  | Some x => Ok x
  | None => Raise (Exception "IndexError")
  end.

(** [SunDimmer.get_location_ip].  The conditional expression binds tighter
    than the comma: only the second component depends on [g.ok]. *)
Definition get_location_ip (senv : StartEnv) : M (pyval * pyval) :=
  try_except
    (g <- call (senv_geocoder senv) ;;
     lat <- lift (py_index (latlng g) 0) ;;
     if ok g then
       lon <- lift (py_index (latlng g) 1) ;;
       ret (PyNumber lat, PyNumber lon)
     else
       ret (PyNumber lat, PyNoneNone))
    (ret (PyNone, PyNone)).

(** [SunDimmer.get_location] *)
Definition get_location (cfg : Config) (senv : StartEnv) : M (pyval * pyval) :=
  if negb (use_auto_location (location cfg)) then
    let lat := manual_latitude (location cfg) in
    let lon := manual_longitude (location cfg) in
    ret (of_option lat, of_option lon)
  else
    log_message INFO MsgGeoclueAttempt ;;
    loc <- get_location_geoclue senv ;;
    if negb (truthy_val (fst loc)) then
      log_message WARN MsgGeoclueUnavailable ;;
      get_location_ip senv
    else
      ret loc.

(** [SunDimmer.get_current_brightness]; [read] is what the readback command
    of the first device and the regular expression on its output give. *)
Definition get_current_brightness (cfg : Config) (read : outcome (option Z))
  : M (option Z) :=
  match devices cfg with
  | [] => ret None
  | device :: _ =>
      try_except_Exception
        (if String.eqb (dev_type device) "laptop" then call read
         else if String.eqb (dev_type device) "monitor" then call read
         else ret None)
        (fun what =>
           log_message ERROR (MsgReadError (dev_name device) what) ;;
           ret None)
  end.

(** The clamp at the head of [set_brightness]. *)
Definition clamp_percentage (cfg : Config) (percentage : Q) : Q :=
  let brightness_config := brightness cfg in
  py_max (min_brightness brightness_config)
         (py_min (max_brightness brightness_config) (inject_Z (py_int percentage))).

(** Whether [set_brightness] builds a command for the device. *)
Definition has_command (device : Device) : bool :=
  String.eqb (dev_type device) "laptop" || String.eqb (dev_type device) "monitor".

(** The [for device in self.config['devices']] loop of [set_brightness];
    the result is [success_flag]. *)
Fixpoint set_devices (write : Device -> outcome unit) (percentage : Q)
  (should_log : bool) (devs : list Device) (success_flag : bool) : M bool :=
  match devs with
  | [] => ret success_flag
  | device :: rest =>
      flag <- try_except_Exception
                (if has_command device then
                   emit (Command device percentage) ;;
                   call (write device) ;;
                   ret success_flag
                 else ret success_flag)
                (fun what =>
                   (if should_log
                    then log_message ERROR (MsgDeviceError (dev_name device) what)
                    else ret tt) ;;
                   ret false) ;;
      set_devices write percentage should_log rest flag
  end.

(** [SunDimmer.set_brightness] *)
Definition set_brightness (cfg : Config) (write : Device -> outcome unit)
  (percentage : Q) (should_log : bool) (altitude : option Q) : M (option Q) :=
  let percentage := clamp_percentage cfg percentage in
  (if should_log then
     m <- get ;;
     let offset_info :=
       if negb (Qeq_bool (user_offset (self_state m)) 0)
       then Some (py_int (user_offset (self_state m))) else None in
     log_message INFO (MsgSetBrightness percentage altitude offset_info)
   else ret tt) ;;
  success_flag <- set_devices write percentage should_log (devices cfg) true ;;
  ret (if success_flag then Some percentage else None).

(** [SunDimmer.set_offset] *)
Definition set_offset (save : outcome unit) (new_offset : Q) : M bool :=
  m <- get ;;
  let old_offset := user_offset (self_state m) in
  modify (with_state {| user_offset := new_offset;
                        last_brightness := last_brightness (self_state m) |}) ;;
  save_state save ;;
  log_message INFO (MsgOffsetChanged (py_int old_offset) (py_int new_offset)) ;;
  ret true.

(** The materiality test of [run]:
    [self.last_logged_brightness is None or
     abs(final_brightness - self.last_logged_brightness) > 0.5]. *)
Definition brightness_will_change (last_logged_brightness : option Q)
  (final_brightness : Q) : bool :=
  match last_logged_brightness with
  | None => true
  | Some logged => Qltb (1 # 2) (Qabs (final_brightness - logged))
  end.

(** The drift test of [run]:
    [abs(current_actual_brightness - last_set_brightness) > tolerance]. *)
Definition manual_change (cfg : Config) (current_actual_brightness : Z)
  (last_set : Q) : bool :=
  let tolerance := manual_change_tolerance (brightness cfg) in
  Qltb tolerance (Qabs (inject_Z current_actual_brightness - last_set)).

(** [x or 50] for the readback of [get_current_brightness]. *)
Definition or_50 (x : option Z) : Q :=
  match x with
  | Some n => if truthy (inject_Z n) then inject_Z n else 50
  | None => 50
  end.

Section SolarModel.

(** [pysolar.solar.get_altitude(lat, lon, when)], with the time as a
    timestamp in seconds. *)
Variable get_altitude : Q -> Q -> Q -> outcome Q.

(** [get_altitude] on values that may not be numbers. *)
Definition get_altitude_val (lat lon : pyval) (when : Q) : M Q :=
  match lat, lon with
  | PyNumber lat, PyNumber lon => call (get_altitude lat lon when)
  | _, _ => raise (Exception "TypeError")
  end.

(** [SunDimmer.will_brightness_change_soon] *)
Definition will_brightness_change_soon (cfg : Config) (now : Q) (lat lon : pyval)
  : M bool :=
  try_except
    (let log_minutes := log_before_change_minutes (system cfg) in
     let current_time := now in
     let future_time := current_time + log_minutes * 60 in
     current_altitude <- get_altitude_val lat lon current_time ;;
     future_altitude <- get_altitude_val lat lon future_time ;;
     m <- get ;;
     c <- lift (calculate_brightness_from_sun cfg current_altitude) ;;
     let current_brightness := c + user_offset (self_state m) in
     f <- lift (calculate_brightness_from_sun cfg future_altitude) ;;
     let future_brightness := f + user_offset (self_state m) in
     ret (Qltb 1 (Qabs (future_brightness - current_brightness))))
    (ret true).

(** [SunDimmer.get_sun_altitude] *)
Definition get_sun_altitude (now : Q) (lat lon : pyval) : M (option Q) :=
  match lat, lon with
  | PyNone, _ => ret None
  | _, PyNone => ret None
  | _, _ =>
      altitude <- get_altitude_val lat lon now ;;
      ret (Some altitude)
  end.

(** The body of the [try] in the loop of [run]; [continue] ends it early. *)
Definition loop_body (cfg : Config) (env : TickEnv) (lat lon : pyval) : M unit :=
  current_actual_brightness <- get_current_brightness cfg (env_read env) ;;
  altitude <- get_sun_altitude (env_now env) lat lon ;;
  match altitude with
  | None => time_sleep (update_interval (system cfg))
  | Some altitude =>
      calculated_brightness <- lift (calculate_brightness_from_sun cfg altitude) ;;
      should_log <- will_brightness_change_soon cfg (env_now_soon env) lat lon ;;
      m <- get ;;
      (if negb (is_first_run m) then
         match current_actual_brightness with
         | Some actual =>
             if manual_change cfg actual (last_set_brightness m) then
               let new_offset := inject_Z actual - calculated_brightness in
               log_message WARN (MsgManualChange (py_int new_offset)) ;;
               set_offset (env_save env) new_offset ;;
               ret tt
             else ret tt
         | None => ret tt
         end
       else ret tt) ;;
      m <- get ;;
      let final_brightness := calculated_brightness + user_offset (self_state m) in
      let will_change :=
        brightness_will_change (self_last_logged_brightness m) final_brightness in
      newly_set_brightness <-
        set_brightness cfg (env_write env) final_brightness
                       (should_log && will_change) (Some altitude) ;;
      match newly_set_brightness with
      | Some newly_set =>
          modify (with_last_set newly_set) ;;
          modify (fun m => with_state {| user_offset := user_offset (self_state m);
                                         last_brightness := newly_set |} m) ;;
          save_state (env_save env) ;;
          if will_change
          then modify (with_last_logged (Some final_brightness))
          else ret tt
      | None => ret tt
      end ;;
      modify (with_first_run false) ;;
      time_sleep (update_interval (system cfg))
  end.

(** Whether the loop goes on after an iteration. *)
Inductive control : Type := Continue | Break.

(** One iteration of the loop of [run]: the body with its two handlers. *)
Definition iteration (cfg : Config) (env : TickEnv) (lat lon : pyval) : M control :=
  fun m =>
    match loop_body cfg env lat lon m with
    | (Ok _, m1, t1) => (Ok Continue, m1, t1)
    | (Raise KeyboardInterrupt, m1, t1) => (Ok Break, m1, t1)
    | (Raise (Exception what), m1, t1) =>
        (Ok Continue, m1,
         t1 ++ [Log ERROR (MsgUnexpected what); Sleep 60])
    end.

(** [while self.running: ...], for as many ticks as the environment describes. *)
Fixpoint run_loop (cfg : Config) (envs : list TickEnv) (lat lon : pyval) : M unit :=
  match envs with
  | [] => ret tt
  | env :: rest =>
      m <- get ;;
      if self_running m then
        ctl <- iteration cfg env lat lon ;;
        match ctl with
        | Continue => run_loop cfg rest lat lon
        | Break => ret tt
        end
      else ret tt
  end.

(** [f"({lat:.4f}, {lon:.4f})"]: only numbers take the format. *)
Definition format_location (lat lon : pyval) : result message :=
  match lat, lon with
  | PyNumber lat, PyNumber lon => Ok (MsgLocation lat lon)
  | _, _ => Raise (Exception "TypeError")
  end.

(** The part of [run] before the loop.  [None]: [run] has returned. *)
Definition run_startup (cfg : Config) (senv : StartEnv) : M (option (pyval * pyval)) :=
  log_message INFO (MsgDevices (map dev_name (devices cfg))) ;;
  loc <- get_location cfg senv ;;
  let lat := fst loc in
  let lon := snd loc in
  if negb (truthy_val lat) then
    log_message ERROR MsgLocationFailed ;;
    ret None
  else
    location_str <- lift (format_location lat lon) ;;
    log_message SUCCESS location_str ;;
    b <- get_current_brightness cfg (senv_read senv) ;;
    modify (with_last_set (or_50 b)) ;;
    modify (with_first_run true) ;;
    ret (Some (lat, lon)).

(** [SunDimmer.run] *)
Definition run (cfg : Config) (senv : StartEnv) (envs : list TickEnv) : M unit :=
  started <- run_startup cfg senv ;;
  match started with
  | None => ret tt
  | Some (lat, lon) => run_loop cfg envs lat lon
  end.

End SolarModel.

(** Whether every device that gets a command takes it. *)
Definition all_written (write : Device -> outcome unit) (devs : list Device) : bool :=
  forallb (fun d => negb (has_command d)
                    || match write d with Done _ => true | Failed _ => false end) devs.

(** What [get_current_brightness] returns: the parsed readback of the first
    device, when there is one and it is of a known type. *)
Definition readback (cfg : Config) (read : outcome (option Z)) : option Z :=
  match devices cfg with
  | [] => None
  | device :: _ =>
      if has_command device then
        match read with
        | Done v => v
        | Failed _ => None
        end
      else None
  end.

(** Whether the manual-change detector of a tick fires, given the readback:
    not on the first tick, not without a readback, and only beyond the
    tolerance. *)
Definition drift_detected (cfg : Config) (m : Mem) (actual : option Z) : bool :=
  negb (is_first_run m)
  && match actual with
     | Some a => manual_change cfg a (last_set_brightness m)
     | None => false
     end.

(** The offset in force after the detector has run, given the readback and
    the curve's value. *)
Definition tick_offset (cfg : Config) (m : Mem) (actual : option Z) (calculated : Q) : Q :=
  match actual with
  | Some a =>
      if drift_detected cfg m actual
      then inject_Z a - calculated
      else user_offset (self_state m)
  | None => user_offset (self_state m)
  end.

(** The imminence gate as the specification words it: both altitudes through
    the curve plus the offset, true when the two differ by more than 1; true
    when an altitude cannot be computed. *)
Definition will_change_soon_spec (cfg : Config) (offset : Q)
  (altitude_now altitude_later : outcome Q) : bool :=
  match altitude_now, altitude_later with
  | Done a1, Done a2 =>
      Qltb 1 (Qabs ((BrightnessCurve_target cfg a2 + offset)
                    - (BrightnessCurve_target cfg a1 + offset)))
  | _, _ => true
  end.

(** The same tick with another reading of the clock in
    [will_brightness_change_soon]. *)
Definition with_now_soon (now : Q) (env : TickEnv) : TickEnv :=
  {| env_read := env_read env;
     env_now := env_now env;
     env_now_soon := now;
     env_write := env_write env;
     env_save := env_save env |}.

(** ** Sample environments *)

Module Sample.

(** A sky in which the sun stands at one altitude all the time. *)
Definition sun_at (altitude : Q) : Q -> Q -> Q -> outcome Q :=
  fun _ _ _ => Done altitude.

(** A sky in which the sun climbs twelve degrees per hour from the horizon. *)
Definition rising_sun : Q -> Q -> Q -> outcome Q :=
  fun _ _ when => Done (when / 300).

(** pysolar out of order. *)
Definition no_sun : Q -> Q -> Q -> outcome Q :=
  fun _ _ _ => Failed "pysolar".

(** A tick in which the first device reads back [percent] and every command
    and the state file work. *)
Definition tick_reading (percent : Z) : TickEnv :=
  {| env_read := Done (Some percent);
     env_now := 0;
     env_now_soon := 0;
     env_write := fun _ => Done tt;
     env_save := Done tt |}.

(** The memory after an earlier tick that set the brightness to 50. *)
Definition after_setting_50 : Mem :=
  {| self_state := DEFAULT_STATE;
     self_running := true;
     self_last_logged_brightness := Some 50;
     last_set_brightness := 50;
     is_first_run := false |}.

(** The default configuration with another poll interval. *)
Definition with_update_interval (seconds : Q) (cfg : Config) : Config :=
  {| location := location cfg;
     brightness := brightness cfg;
     system := {| update_interval := seconds;
                  log_before_change_minutes := log_before_change_minutes (system cfg) |};
     devices := devices cfg |}.

(** The default configuration with another manual location. *)
Definition located_at (lat lon : Q) (cfg : Config) : Config :=
  {| location := {| manual_latitude := Some lat;
                    manual_longitude := Some lon;
                    use_auto_location := false |};
     brightness := brightness cfg;
     system := system cfg;
     devices := devices cfg |}.

(** A start in which the first device reads back [read]. *)
Definition start_reading (read : option Z) : StartEnv :=
  {| senv_geoclue := Failed "where-am-i";
     senv_geocoder := Failed "geocoder";
     senv_read := Done read |}.

(** A tick in which the first device reads back [percent] and the monitor's
    command fails. *)
Definition tick_monitor_down (percent : Z) : TickEnv :=
  {| env_read := Done (Some percent);
     env_now := 0;
     env_now_soon := 0;
     env_write := fun d => if String.eqb (dev_type d) "monitor"
                           then Failed "ddcutil" else Done tt;
     env_save := Done tt |}.

(** The same tick at another reading of the clock in [get_sun_altitude]. *)
Definition at_time (now : Q) (env : TickEnv) : TickEnv :=
  {| env_read := env_read env;
     env_now := now;
     env_now_soon := env_now_soon env;
     env_write := env_write env;
     env_save := env_save env |}.

(** The default configuration with other brightness bounds. *)
Definition with_bounds (lo hi : Q) (cfg : Config) : Config :=
  {| location := location cfg;
     brightness := {| min_brightness := lo;
                      max_brightness := hi;
                      sun_down_alt := sun_down_alt (brightness cfg);
                      sun_high_alt := sun_high_alt (brightness cfg);
                      manual_change_tolerance := manual_change_tolerance (brightness cfg) |};
     system := system cfg;
     devices := devices cfg |}.

(** The default configuration with other devices. *)
Definition with_devices (devs : list Device) (cfg : Config) : Config :=
  {| location := location cfg;
     brightness := brightness cfg;
     system := system cfg;
     devices := devs |}.

(** The default configuration with a manual location that may lack a part. *)
Definition with_location (lat lon : option Q) (cfg : Config) : Config :=
  {| location := {| manual_latitude := lat;
                    manual_longitude := lon;
                    use_auto_location := false |};
     brightness := brightness cfg;
     system := system cfg;
     devices := devices cfg |}.

(** The default configuration looking its location up. *)
Definition auto_located (cfg : Config) : Config :=
  {| location := {| manual_latitude := manual_latitude (location cfg);
                    manual_longitude := manual_longitude (location cfg);
                    use_auto_location := true |};
     brightness := brightness cfg;
     system := system cfg;
     devices := devices cfg |}.

(** Poznan, the location of the default configuration. *)
Definition poznan_lat : Q := 523821038 # 10000000.
Definition poznan_lon : Q := 169141764 # 10000000.

End Sample.

(** * Proofs *)

(** ** Numbers *)

Lemma Qltb_lt (a b : Q) : Qltb a b = true <-> a < b.
Proof.
  unfold Qltb. rewrite negb_true_iff.
  split; intro H.
  - apply Qnot_le_lt. intro Hle. apply Qle_bool_iff in Hle. congruence.
  - destruct (Qle_bool b a) eqn:E; [| reflexivity].
    apply Qle_bool_iff in E. exfalso. exact (Qlt_not_le _ _ H E).
Qed.

Lemma Qltb_ge (a b : Q) : Qltb a b = false <-> b <= a.
Proof.
  unfold Qltb. rewrite negb_false_iff. apply Qle_bool_iff.
Qed.

Lemma Qle_bool_gt (a b : Q) : Qle_bool a b = false <-> b < a.
Proof.
  rewrite <- Qltb_lt. unfold Qltb. now rewrite negb_true_iff.
Qed.

Lemma py_max_lower (a b : Q) : a <= py_max a b.
Proof.
  unfold py_max. destruct (Qltb a b) eqn:E.
  - apply Qltb_lt in E. lra.
  - lra.
Qed.

Lemma py_max_upper (a b c : Q) : a <= c -> b <= c -> py_max a b <= c.
Proof. unfold py_max. now destruct (Qltb a b). Qed.

Lemma py_min_upper (a b : Q) : py_min a b <= a.
Proof.
  unfold py_min. destruct (Qltb b a) eqn:E.
  - apply Qltb_lt in E. lra.
  - lra.
Qed.

Lemma clamp_bounds (cfg : Config) (x : Q) :
  min_brightness (brightness cfg) <= max_brightness (brightness cfg) ->
  min_brightness (brightness cfg) <= clamp_percentage cfg x
  /\ clamp_percentage cfg x <= max_brightness (brightness cfg).
Proof.
  intro H. unfold clamp_percentage. split.
  - apply py_max_lower.
  - apply py_max_upper; [exact H | apply py_min_upper].
Qed.

Lemma clamp_inside (cfg : Config) (x : Q) :
  min_brightness (brightness cfg) <= inject_Z (py_int x) ->
  inject_Z (py_int x) <= max_brightness (brightness cfg) ->
  clamp_percentage cfg x == inject_Z (py_int x).
Proof.
  intros Hlo Hhi. unfold clamp_percentage, py_max, py_min.
  destruct (Qltb (inject_Z (py_int x)) (max_brightness (brightness cfg))) eqn:E1.
  - destruct (Qltb (min_brightness (brightness cfg)) (inject_Z (py_int x))) eqn:E2.
    + reflexivity.
    + apply Qltb_ge in E2. lra.
  - apply Qltb_ge in E1.
    destruct (Qltb (min_brightness (brightness cfg)) (max_brightness (brightness cfg))) eqn:E2.
    + lra.
    + apply Qltb_ge in E2. lra.
Qed.

(** ** The sample values in binary64 *)

(** The default curve at altitude 12 is at 50.5 in binary64 too, a readback
    of 60 is 9.5 above it, and 40.3 (the nearest binary64 number to it) is
    within 0.5 of 40 while 41 is not. *)
Lemma binary64_samples :
  Binary64.calculate_brightness_from_sun 1 100 (-6) 30 12 = 50.5%float
  /\ (60 - Binary64.calculate_brightness_from_sun 1 100 (-6) 30 12)%float = 9.5%float
  /\ Binary64.brightness_will_change (Some 40%float) 0x1.4266666666666p+5%float = false
  /\ Binary64.brightness_will_change (Some 40%float) 41%float = true.
Proof. repeat split. Qed.

(** ** Properties of the curve *)

(** The division in the middle segment never raises: between the two
    thresholds the range is not zero. *)
Lemma calculate_brightness_from_sun_total (cfg : Config) (altitude : Q) :
  calculate_brightness_from_sun cfg altitude = Ok (BrightnessCurve_target cfg altitude).
Proof.
  unfold calculate_brightness_from_sun, BrightnessCurve_target, py_truediv.
  destruct (Qle_bool altitude (sun_down_alt (brightness cfg))) eqn:Hlo; [reflexivity |].
  destruct (Qle_bool (sun_high_alt (brightness cfg)) altitude) eqn:Hhi; [reflexivity |].
  apply Qle_bool_gt in Hlo. apply Qle_bool_gt in Hhi.
  destruct (Qeq_bool (sun_high_alt (brightness cfg) - sun_down_alt (brightness cfg)) 0) eqn:Hz;
    [| reflexivity].
  apply Qeq_bool_iff in Hz. lra.
Qed.

Lemma curve_low (cfg : Config) (a : Q) :
  a <= sun_down_alt (brightness cfg) ->
  BrightnessCurve_target cfg a = min_brightness (brightness cfg).
Proof.
  intro H. unfold BrightnessCurve_target.
  apply Qle_bool_iff in H. now rewrite H.
Qed.

Lemma curve_high (cfg : Config) (a : Q) :
  sun_down_alt (brightness cfg) < sun_high_alt (brightness cfg) ->
  sun_high_alt (brightness cfg) <= a ->
  BrightnessCurve_target cfg a = max_brightness (brightness cfg).
Proof.
  intros Hinv H. unfold BrightnessCurve_target.
  assert (Hlo : Qle_bool a (sun_down_alt (brightness cfg)) = false)
    by (apply Qle_bool_gt; lra).
  apply Qle_bool_iff in H. now rewrite Hlo, H.
Qed.

Lemma curve_mid (cfg : Config) (a : Q) :
  sun_down_alt (brightness cfg) < a -> a < sun_high_alt (brightness cfg) ->
  BrightnessCurve_target cfg a =
    min_brightness (brightness cfg)
    + (a - sun_down_alt (brightness cfg))
      / (sun_high_alt (brightness cfg) - sun_down_alt (brightness cfg))
      * (max_brightness (brightness cfg) - min_brightness (brightness cfg)).
Proof.
  intros H1 H2. unfold BrightnessCurve_target.
  apply Qle_bool_gt in H1. apply Qle_bool_gt in H2. now rewrite H1, H2.
Qed.





(** ** The monad *)

Lemma bind_run {A B} (c : M A) (k : A -> M B) (m m1 : Mem) (a : A) (t1 : list event) :
  c m = (Ok a, m1, t1) ->
  bind c k m = (result_of (k a m1), mem_of (k a m1), t1 ++ trace_of (k a m1)).
Proof.
  intro H. unfold bind. rewrite H.
  now destruct (k a m1) as [[r m2] t2].
Qed.

Lemma bind_step {A B} (c : M A) (k : A -> M B) (m m1 m2 : Mem) (a : A)
  (r : result B) (t1 t2 : list event) :
  c m = (Ok a, m1, t1) -> k a m1 = (r, m2, t2) -> bind c k m = (r, m2, t1 ++ t2).
Proof. intros H1 H2. unfold bind. now rewrite H1, H2. Qed.

Lemma bind_raise {A B} (c : M A) (k : A -> M B) (m m1 : Mem) (e : exn) (t1 : list event) :
  c m = (Raise e, m1, t1) -> bind c k m = (Raise e, m1, t1).
Proof. intro H. unfold bind. now rewrite H. Qed.

Lemma commands_app (t1 t2 : list event) : commands (t1 ++ t2) = commands t1 ++ commands t2.
Proof.
  induction t1 as [| e t1 IH]; [reflexivity |].
  destruct e; simpl; now rewrite IH.
Qed.

Lemma sleeps_app (t1 t2 : list event) : sleeps (t1 ++ t2) = sleeps t1 ++ sleeps t2.
Proof.
  induction t1 as [| e t1 IH]; [reflexivity |].
  destruct e; simpl; now rewrite IH.
Qed.

Lemma saves_app (t1 t2 : list event) : saves (t1 ++ t2) = saves t1 ++ saves t2.
Proof.
  induction t1 as [| e t1 IH]; [reflexivity |].
  destruct e; simpl; now rewrite IH.
Qed.

Lemma announcements_app (t1 t2 : list event) :
  announcements (t1 ++ t2) = announcements t1 ++ announcements t2.
Proof.
  induction t1 as [| e t1 IH]; [reflexivity |].
  destruct e as [lv [] | | |]; simpl; now rewrite IH.
Qed.

(** ** The methods, one by one *)

Lemma quiet_nil : quiet [].
Proof. repeat split. Qed.

Lemma quiet_log (lv : level) (msg : message) :
  (forall p a o, msg <> MsgSetBrightness p a o) -> quiet [Log lv msg].
Proof.
  intro H. repeat split. destruct msg; try reflexivity.
  exfalso. eapply H. reflexivity.
Qed.

Lemma quiet_app (t1 t2 : list event) : quiet t1 -> quiet t2 -> quiet (t1 ++ t2).
Proof.
  intros (A1 & A2 & A3 & A4) (B1 & B2 & B3 & B4). unfold quiet.
  rewrite commands_app, sleeps_app, saves_app, announcements_app.
  rewrite A1, A2, A3, A4, B1, B2, B3, B4. repeat split.
Qed.

Create HintDb quiet.
#[local] Hint Resolve quiet_nil quiet_app : quiet.
#[local] Hint Extern 1 (quiet [Log _ _]) => (apply quiet_log; discriminate) : quiet.

(** [save_state] never raises and leaves the memory alone; it writes the
    state it finds. *)
Lemma save_state_run (save : outcome unit) (m : Mem) :
  exists t, save_state save m = (Ok tt, m, SaveState (self_state m) :: t) /\ quiet t.
Proof.
  unfold save_state, try_except_Exception, bind, get, emit, call, log_message.
  destruct save as [[] | what]; simpl; eexists; split; try reflexivity; auto with quiet.
Qed.

(** [set_offset] never raises; afterwards the offset is the new one, whatever
    the old one was, and that state has gone to the state file. *)
Lemma set_offset_run (save : outcome unit) (new_offset : Q) (m : Mem) :
  let st := {| user_offset := new_offset;
               last_brightness := last_brightness (self_state m) |} in
  exists t, set_offset save new_offset m = (Ok true, with_state st m, SaveState st :: t)
            /\ quiet t.
Proof.
  intro st. unfold set_offset.
  destruct (save_state_run save (with_state st m)) as (t & Hs & Hq).
  exists (t ++ [Log INFO (MsgOffsetChanged (py_int (user_offset (self_state m)))
                            (py_int new_offset))]).
  split.
  - unfold bind at 1. unfold get at 1. cbv beta iota.
    unfold bind at 1. unfold modify at 1. cbv beta iota. fold st.
    unfold bind at 1. rewrite Hs. cbv beta iota.
    unfold bind, log_message, emit, ret. reflexivity.
  - auto with quiet.
Qed.

(** The device loop never raises and leaves the memory alone; every device
    with a command gets it, with the same percentage, in order. *)
Lemma set_devices_run (write : Device -> outcome unit) (p : Q) (should_log : bool)
  (devs : list Device) (flag : bool) (m : Mem) :
  exists t, set_devices write p should_log devs flag m
            = (Ok (flag && all_written write devs), m, t)
            /\ commands t = map (fun d => (d, p)) (filter has_command devs)
            /\ sleeps t = [] /\ saves t = [] /\ announcements t = [].
Proof.
  revert flag. induction devs as [| d devs IH]; intro flag.
  - exists []. simpl. unfold ret. rewrite andb_true_r. repeat split.
  - simpl set_devices. simpl all_written. simpl filter.
    destruct (has_command d) eqn:Hc.
    + destruct (write d) as [[] | what] eqn:Hw.
      * destruct (IH flag) as (t & Hr & H1 & H2 & H3 & H4).
        exists (Command d p :: t). split.
        -- unfold bind at 1, try_except_Exception, bind, emit, call, ret.
           simpl. rewrite Hr. reflexivity.
        -- simpl. rewrite H1, H2, H3, H4. repeat split.
      * destruct (IH false) as (t & Hr & H1 & H2 & H3 & H4).
        exists (Command d p ::
                (if should_log then [Log ERROR (MsgDeviceError (dev_name d) what)] else [])
                ++ t).
        split.
        -- unfold bind at 1, try_except_Exception, bind, emit, call, raise, ret, log_message.
           destruct should_log; simpl; rewrite Hr; simpl;
             now rewrite andb_false_r.
        -- destruct should_log; simpl; rewrite H1, H2, H3, H4; repeat split.
    + destruct (IH flag) as (t & Hr & H1 & H2 & H3 & H4).
      exists t. split.
      * unfold bind at 1, try_except_Exception, ret. rewrite Hr. reflexivity.
      * simpl. repeat split; assumption.
Qed.

(** [get_current_brightness] never raises and leaves the memory alone. *)
Lemma get_current_brightness_run (cfg : Config) (read : outcome (option Z)) (m : Mem) :
  exists t, get_current_brightness cfg read m = (Ok (readback cfg read), m, t) /\ quiet t.
Proof.
  unfold get_current_brightness, readback, has_command.
  destruct (devices cfg) as [| d ds].
  - exists []. auto with quiet.
  - unfold try_except_Exception, call, bind, ret, raise, log_message, emit.
    destruct (String.eqb (dev_type d) "laptop");
      [| destruct (String.eqb (dev_type d) "monitor")];
      simpl; try (exists []; auto with quiet; fail);
      destruct read as [v | what]; simpl;
      eexists; split; try reflexivity; auto with quiet.
Qed.

(** [set_brightness] never raises and leaves the memory alone; it sends the
    clamped integer percentage to every device with a command, whether or not
    it logs; it announces the percentage when asked to log. *)
Lemma set_brightness_run (cfg : Config) (write : Device -> outcome unit)
  (percentage : Q) (should_log : bool) (altitude : option Q) (m : Mem) :
  let p := clamp_percentage cfg percentage in
  exists t, set_brightness cfg write percentage should_log altitude m
            = (Ok (if all_written write (devices cfg) then Some p else None), m, t)
            /\ commands t = map (fun d => (d, p)) (filter has_command (devices cfg))
            /\ sleeps t = [] /\ saves t = []
            /\ announcements t = if should_log then [p] else [].
Proof.
  intro p. unfold set_brightness. fold p.
  destruct (set_devices_run write p should_log (devices cfg) true m)
    as (t & Hr & H1 & H2 & H3 & H4).
  simpl andb in Hr.
  destruct should_log.
  - eexists. split.
    + unfold bind at 1. unfold bind at 1, get, log_message, emit. cbv beta iota.
      unfold bind. rewrite Hr. unfold ret. simpl. reflexivity.
    + rewrite app_nil_r. simpl. rewrite H1, H2, H3, H4. repeat split.
  - exists t. split.
    + unfold bind, ret. rewrite Hr. simpl. now rewrite app_nil_r.
    + repeat split; assumption.
Qed.

(** ** One tick of the loop *)

Section TickFacts.

Variable get_altitude : Q -> Q -> Q -> outcome Q.

(** [will_brightness_change_soon] never raises, leaves the memory alone and
    logs nothing. *)
Lemma will_brightness_change_soon_run (cfg : Config) (now lat lon : Q) (m : Mem) :
  will_brightness_change_soon get_altitude cfg now (PyNumber lat) (PyNumber lon) m
  = (Ok (will_change_soon_spec cfg (user_offset (self_state m))
           (get_altitude lat lon now)
           (get_altitude lat lon (now + log_before_change_minutes (system cfg) * 60))),
     m, []).
Proof.
  unfold will_brightness_change_soon, will_change_soon_spec, try_except,
    get_altitude_val, bind, call, get, ret, raise.
  destruct (get_altitude lat lon now) as [a1 | w1]; [| reflexivity].
  destruct (get_altitude lat lon _) as [a2 | w2]; [| reflexivity].
  rewrite !calculate_brightness_from_sun_total. reflexivity.
Qed.

Lemma will_brightness_change_soon_total (cfg : Config) (now : Q) (lat lon : pyval) (m : Mem) :
  exists b, will_brightness_change_soon get_altitude cfg now lat lon m = (Ok b, m, []).
Proof.
  destruct lat as [| lat |]; try (eexists; reflexivity).
  destruct lon as [| lon |]; try (eexists; reflexivity).
  eexists. apply will_brightness_change_soon_run.
Qed.

Lemma get_sun_altitude_run (now lat lon alt : Q) (m : Mem) :
  get_altitude lat lon now = Done alt ->
  get_sun_altitude get_altitude now (PyNumber lat) (PyNumber lon) m = (Ok (Some alt), m, []).
Proof.
  intro H. unfold get_sun_altitude, get_altitude_val, bind, call, ret. now rewrite H.
Qed.

Lemma get_sun_altitude_fails (now lat lon : Q) (what : string) (m : Mem) :
  get_altitude lat lon now = Failed what ->
  get_sun_altitude get_altitude now (PyNumber lat) (PyNumber lon) m
  = (Raise (Exception what), m, []).
Proof.
  intro H. unfold get_sun_altitude, get_altitude_val, bind, call, raise. now rewrite H.
Qed.

(** The manual-change detector of [run] never raises; it leaves the offset
    at [tick_offset] and changes nothing else. *)
Lemma detector_run (cfg : Config) (save : outcome unit) (actual : option Z)
  (calculated : Q) (m : Mem) :
  let c := if negb (is_first_run m) then
             match actual with
             | Some a =>
                 if manual_change cfg a (last_set_brightness m) then
                   let new_offset := inject_Z a - calculated in
                   log_message WARN (MsgManualChange (py_int new_offset)) ;;
                   set_offset save new_offset ;;
                   ret tt
                 else ret tt
             | None => ret tt
             end
           else ret tt in
  let st := {| user_offset := tick_offset cfg m actual calculated;
               last_brightness := last_brightness (self_state m) |} in
  exists t, c m = (Ok tt, with_state st m, t)
            /\ commands t = [] /\ sleeps t = [] /\ announcements t = []
            /\ saves t = if drift_detected cfg m actual then [st] else [].
Proof.
  intros c st. subst c st. unfold tick_offset, drift_detected.
  assert (Hid : forall m : Mem,
             with_state {| user_offset := user_offset (self_state m);
                           last_brightness := last_brightness (self_state m) |} m = m)
    by (intros [[] ? ? ? ?]; reflexivity).
  destruct (negb (is_first_run m)); cbn [andb].
  - destruct actual as [a |].
    + destruct (manual_change cfg a (last_set_brightness m)).
      * destruct (set_offset_run save (inject_Z a - calculated) m)
          as (t & Hr & H1 & H2 & H3 & H4).
        eexists. split.
        -- unfold bind at 1. unfold log_message at 1, emit at 1. cbv beta iota.
           unfold bind. rewrite Hr. unfold ret. reflexivity.
        -- rewrite app_nil_r. simpl. rewrite H1, H2, H3, H4. repeat split.
      * exists []. rewrite Hid. repeat split.
    + exists []. rewrite Hid. repeat split.
  - exists []. destruct actual; rewrite Hid; repeat split.
Qed.

(** What one tick does when the altitude is available: the closed form of
    [loop_body] that the claims below are read off from. *)
Lemma loop_body_run (cfg : Config) (env : TickEnv) (lat lon alt : Q) (m : Mem) :
  get_altitude lat lon (env_now env) = Done alt ->
  let calculated := BrightnessCurve_target cfg alt in
  let actual := readback cfg (env_read env) in
  let offset := tick_offset cfg m actual calculated in
  let final_brightness := calculated + offset in
  let p := clamp_percentage cfg final_brightness in
  let written := all_written (env_write env) (devices cfg) in
  let should_log :=
    will_change_soon_spec cfg (user_offset (self_state m))
      (get_altitude lat lon (env_now_soon env))
      (get_altitude lat lon
         (env_now_soon env + log_before_change_minutes (system cfg) * 60)) in
  let will_change :=
    brightness_will_change (self_last_logged_brightness m) final_brightness in
  let X := loop_body get_altitude cfg env (PyNumber lat) (PyNumber lon) m in
  commands (trace_of X) = map (fun d => (d, p)) (filter has_command (devices cfg))
  /\ user_offset (self_state (mem_of X)) = offset
  /\ last_brightness (self_state (mem_of X))
     = (if written then p else last_brightness (self_state m))
  /\ last_set_brightness (mem_of X) = (if written then p else last_set_brightness m)
  /\ self_last_logged_brightness (mem_of X)
     = (if written && will_change then Some final_brightness
        else self_last_logged_brightness m)
  /\ is_first_run (mem_of X) = false
  /\ self_running (mem_of X) = self_running m
  /\ announcements (trace_of X) = (if should_log && will_change then [p] else [])
  /\ saves (trace_of X)
     = (if drift_detected cfg m actual
        then [ {| user_offset := offset;
                  last_brightness := last_brightness (self_state m) |} ]
        else [])
       ++ (if written then [ {| user_offset := offset; last_brightness := p |} ] else [])
  /\ (if Qltb (update_interval (system cfg)) 0
      then result_of X = Raise (Exception "ValueError") /\ sleeps (trace_of X) = []
      else result_of X = Ok tt /\ sleeps (trace_of X) = [update_interval (system cfg)]).
Proof.
  intros Halt calculated actual offset final_brightness p written should_log will_change X.
  destruct (get_current_brightness_run cfg (env_read env) m)
    as (t0 & E0 & C0 & S0 & V0 & A0).
  fold actual in E0.
  destruct (detector_run cfg (env_save env) actual calculated m)
    as (t1 & E1 & C1 & S1 & A1 & V1).
  cbv zeta in E1. fold offset in E1, V1.
  set (m1 := with_state _ m) in E1.
  destruct (set_brightness_run cfg (env_write env) final_brightness
              (should_log && will_change) (Some alt) m1)
    as (t2 & E2 & C2 & S2 & V2 & A2).
  cbv zeta in E2. fold p in E2, C2, A2. fold written in E2.
  set (m2 := with_state {| user_offset := offset; last_brightness := p |}
               (with_last_set p m1)).
  destruct (save_state_run (env_save env) m2) as (t3 & E3 & C3 & S3 & V3 & A3).
  pose proof (will_brightness_change_soon_run cfg (env_now_soon env) lat lon m) as Esoon.
  fold should_log in Esoon.
  assert (Ew : match (if written then Some p else None) with
               | Some newly_set =>
                   modify (with_last_set newly_set) ;;
                   modify (fun m => with_state
                                      {| user_offset := user_offset (self_state m);
                                         last_brightness := newly_set |} m) ;;
                   save_state (env_save env) ;;
                   (if will_change
                    then modify (with_last_logged (Some final_brightness))
                    else ret tt)
               | None => ret tt
               end m1
               = (Ok tt,
                  (if written
                   then (if will_change
                         then with_last_logged (Some final_brightness) m2 else m2)
                   else m1),
                  (if written then SaveState (self_state m2) :: t3 else []))).
  { destruct written; [| reflexivity].
    unfold bind at 1. unfold modify at 1. cbv beta iota.
    unfold bind at 1. unfold modify at 1. cbv beta iota.
    change (with_state _ (with_last_set p m1)) with m2.
    unfold bind. rewrite E3.
    destruct will_change; unfold modify, ret; simpl; now rewrite app_nil_r. }
  set (m3 := if written then _ else m1) in Ew.
  assert (Es : time_sleep (update_interval (system cfg)) (with_first_run false m3)
               = ((if Qltb (update_interval (system cfg)) 0
                   then Raise (Exception "ValueError") else Ok tt),
                  with_first_run false m3,
                  (if Qltb (update_interval (system cfg)) 0
                   then [] else [Sleep (update_interval (system cfg))]))).
  { unfold time_sleep. destruct (Qltb (update_interval (system cfg)) 0); reflexivity. }
  eassert (E : X = _).
  { subst X. unfold loop_body.
    eapply bind_step; [exact E0 |].
    eapply bind_step; [exact (get_sun_altitude_run _ _ _ _ m Halt) |].
    cbv beta iota.
    rewrite calculate_brightness_from_sun_total. fold calculated.
    eapply bind_step; [reflexivity |].
    eapply bind_step; [exact Esoon |].
    eapply bind_step; [reflexivity |].
    eapply bind_step; [exact E1 |].
    eapply bind_step; [reflexivity |].
    cbv zeta.
    change (user_offset (self_state m1)) with offset.
    change (self_last_logged_brightness m1) with (self_last_logged_brightness m).
    fold final_brightness. fold will_change.
    eapply bind_step; [exact E2 |].
    eapply bind_step; [exact Ew |].
    eapply bind_step; [reflexivity |].
    exact Es. }
  rewrite E. unfold trace_of, mem_of, result_of. cbn [fst snd app].
  rewrite !commands_app, !saves_app, !sleeps_app, !announcements_app.
  rewrite C0, C1, C2, S0, S1, S2, V0, V1, V2, A0, A1, A2.
  subst m3.
  destruct written; cbn [commands saves sleeps announcements app];
    rewrite ?C3, ?S3, ?V3, ?A3;
    destruct (Qltb (update_interval (system cfg)) 0);
    cbn [commands saves sleeps announcements app];
    rewrite ?app_nil_r; subst m2 m1;
    destruct will_change; repeat split; reflexivity.
Qed.

End TickFacts.

(** ** Iterations and the loop *)

Section LoopFacts.

Variable get_altitude : Q -> Q -> Q -> outcome Q.

(** When pysolar fails, the body raises before anything is computed. *)
Lemma loop_body_fails (cfg : Config) (env : TickEnv) (lat lon : Q) (what : string) (m : Mem) :
  get_altitude lat lon (env_now env) = Failed what ->
  exists t, loop_body get_altitude cfg env (PyNumber lat) (PyNumber lon) m
            = (Raise (Exception what), m, t) /\ quiet t.
Proof.
  intro H.
  destruct (get_current_brightness_run cfg (env_read env) m) as (t0 & E0 & Q0).
  exists t0. split; [| exact Q0].
  unfold loop_body. unfold bind at 1. rewrite E0.
  rewrite (bind_raise _ _ _ _ _ _ (get_sun_altitude_fails get_altitude _ _ _ _ m H)).
  now rewrite app_nil_r.
Qed.

(** The body never raises [KeyboardInterrupt] and never touches
    [self.running]. *)
Lemma loop_body_result (cfg : Config) (env : TickEnv) (lat lon : Q) (m : Mem) :
  let X := loop_body get_altitude cfg env (PyNumber lat) (PyNumber lon) m in
  (result_of X = Ok tt \/ exists what, result_of X = Raise (Exception what))
  /\ self_running (mem_of X) = self_running m.
Proof.
  intro X. subst X.
  destruct (get_altitude lat lon (env_now env)) as [alt | what] eqn:Halt.
  - destruct (loop_body_run get_altitude cfg env lat lon alt m Halt)
      as (_ & _ & _ & _ & _ & _ & Hrun & _ & _ & Hres).
    split; [| exact Hrun].
    destruct (Qltb (update_interval (system cfg)) 0); destruct Hres as [Hr _];
      rewrite Hr; [right; eexists |left]; reflexivity.
  - destruct (loop_body_fails cfg env lat lon what m Halt) as (t & E & _).
    rewrite E. split; [right; eexists |]; reflexivity.
Qed.

(** An iteration is its body, plus the handler's two events when the body
    raised. *)
Lemma iteration_run (cfg : Config) (env : TickEnv) (lat lon : Q) (m : Mem) :
  let B := loop_body get_altitude cfg env (PyNumber lat) (PyNumber lon) m in
  let X := iteration get_altitude cfg env (PyNumber lat) (PyNumber lon) m in
  result_of X = Ok Continue
  /\ mem_of X = mem_of B
  /\ trace_of X = trace_of B
                  ++ match result_of B with
                     | Raise (Exception what) =>
                         [Log ERROR (MsgUnexpected what); Sleep 60]
                     | _ => []
                     end.
Proof.
  intros B X. subst X B. unfold iteration.
  destruct (loop_body_result cfg env lat lon m) as [Hres _]. cbv zeta in Hres.
  destruct (loop_body get_altitude cfg env (PyNumber lat) (PyNumber lon) m) as [[r m1] t1].
  unfold result_of, mem_of, trace_of in *. cbn [fst snd] in *.
  destruct Hres as [-> | [what ->]]; cbn [fst snd]; rewrite ?app_nil_r; repeat split.
Qed.

(** The loop goes from one tick to the next as long as [self.running]. *)
Lemma run_loop_step (cfg : Config) (env : TickEnv) (rest : list TickEnv)
  (lat lon : Q) (m : Mem) :
  self_running m = true ->
  let X := iteration get_altitude cfg env (PyNumber lat) (PyNumber lon) m in
  let R := run_loop get_altitude cfg rest (PyNumber lat) (PyNumber lon) (mem_of X) in
  run_loop get_altitude cfg (env :: rest) (PyNumber lat) (PyNumber lon) m
  = (result_of R, mem_of R, trace_of X ++ trace_of R).
Proof.
  intros Hrun X R.
  destruct (iteration_run cfg env lat lon m) as (Hr & _ & _). fold X in Hr.
  cbn [run_loop]. unfold bind at 1, get at 1. cbv beta iota. rewrite Hrun.
  unfold bind. subst R X.
  destruct (iteration get_altitude cfg env (PyNumber lat) (PyNumber lon) m) as [[r m1] t1].
  unfold result_of, mem_of, trace_of in *. cbn [fst snd] in *.
  subst r.
  now destruct (run_loop get_altitude cfg rest (PyNumber lat) (PyNumber lon) m1) as [[r2 m2] t2].
Qed.

End LoopFacts.

(** ** Start-up *)

(** [get_location] only logs. *)
Lemma get_location_mem (cfg : Config) (senv : StartEnv) (m : Mem) :
  mem_of (get_location cfg senv m) = m /\ quiet (trace_of (get_location cfg senv m)).
Proof.
  unfold get_location.
  destruct (use_auto_location (location cfg)); cbn [negb]; [| split; [reflexivity | apply quiet_nil]].
  unfold get_location_geoclue, get_location_ip, try_except, bind, call, lift, ret, raise,
    log_message, emit, py_index.
  destruct (senv_geoclue senv) as [[[la lo] |] | w]; cbn;
    try (destruct (truthy la)); cbn;
    try (split; [reflexivity | repeat split]; fail);
    destruct (senv_geocoder senv) as [g | w']; cbn;
    try (split; [reflexivity | repeat split]; fail);
    destruct (latlng g) as [| x [| y l]]; destruct (ok g); cbn;
    split; try reflexivity; repeat split.
Qed.

(** With a falsy latitude, [run] logs the failure and returns. *)
Lemma run_unresolved (get_altitude : Q -> Q -> Q -> outcome Q) (cfg : Config)
  (senv : StartEnv) (envs : list TickEnv) (m m1 : Mem) (lat lon : pyval) (t : list event) :
  get_location cfg senv m = (Ok (lat, lon), m1, t) ->
  truthy_val lat = false ->
  run get_altitude cfg senv envs m
  = (Ok tt, m1,
     Log INFO (MsgDevices (map dev_name (devices cfg))) :: t ++ [Log ERROR MsgLocationFailed]).
Proof.
  intros Hloc Hlat. unfold run, run_startup.
  unfold bind at 1. unfold bind at 1. unfold log_message at 1, emit at 1. cbv beta iota.
  unfold bind at 1. rewrite Hloc. cbn [fst snd]. rewrite Hlat. cbn [negb].
  unfold bind, log_message, emit, ret. cbn. now rewrite !app_nil_r.
Qed.

(** With a resolved location, [run] enters the loop with the baseline
    [readback or 50]. *)
Lemma run_startup_resolved (cfg : Config) (senv : StartEnv) (m m1 : Mem)
  (lat lon : Q) (t : list event) :
  get_location cfg senv m = (Ok (PyNumber lat, PyNumber lon), m1, t) ->
  truthy lat = true ->
  result_of (run_startup cfg senv m) = Ok (Some (PyNumber lat, PyNumber lon))
  /\ mem_of (run_startup cfg senv m)
     = with_first_run true (with_last_set (or_50 (readback cfg (senv_read senv))) m1).
Proof.
  intros Hloc Hlat.
  destruct (get_current_brightness_run cfg (senv_read senv) m1) as (t0 & E0 & _).
  eassert (E : run_startup cfg senv m = _).
  { unfold run_startup.
    eapply bind_step; [reflexivity |].
    eapply bind_step; [exact Hloc |].
    cbn [fst snd truthy_val]. rewrite Hlat. cbn [negb format_location lift].
    eapply bind_step; [reflexivity |].
    eapply bind_step; [reflexivity |].
    eapply bind_step; [exact E0 |].
    eapply bind_step; [reflexivity |].
    eapply bind_step; [reflexivity |].
    reflexivity. }
  rewrite E. split; reflexivity.
Qed.

(** The handler of an iteration adds a log line and a sleep, nothing else. *)
Lemma iteration_effects (get_altitude : Q -> Q -> Q -> outcome Q) (cfg : Config)
  (env : TickEnv) (lat lon : Q) (m : Mem) :
  let B := loop_body get_altitude cfg env (PyNumber lat) (PyNumber lon) m in
  let X := iteration get_altitude cfg env (PyNumber lat) (PyNumber lon) m in
  mem_of X = mem_of B
  /\ commands (trace_of X) = commands (trace_of B)
  /\ saves (trace_of X) = saves (trace_of B)
  /\ announcements (trace_of X) = announcements (trace_of B).
Proof.
  intros B X.
  destruct (iteration_run get_altitude cfg env lat lon m) as (_ & Hm & Ht).
  fold B X in Hm, Ht. rewrite Ht, commands_app, saves_app, announcements_app.
  split; [exact Hm |].
  destruct (result_of B) as [| [| what]]; cbn; rewrite !app_nil_r; repeat split.
Qed.

(** What [get_current_brightness] returns is [readback]. *)
Lemma readback_of_result (cfg : Config) (read : outcome (option Z)) (m : Mem)
  (v : option Z) :
  result_of (get_current_brightness cfg read m) = Ok v -> readback cfg read = v.
Proof.
  destruct (get_current_brightness_run cfg read m) as (t & E & _).
  rewrite E. unfold result_of. cbn. now intros [= ->].
Qed.

(** * The claims *)

Import Sample.

(** ** The brightness curve *)

(** C3.  [calculate_brightness_from_sun] is the three-segment map of the
    specification: it never raises and returns [BrightnessCurve_target];
    that is [min_brightness] up to [sun_down_alt], [max_brightness] from
    [sun_high_alt] on (the first test failing), and the linear interpolation
    in between.  With the default bounds [1, 100, -6, 30] an altitude of 12
    gives 50.5. *)
Theorem C3_curve_is_three_segment_map (cfg : Config) (altitude : Q) :
  let b := brightness cfg in
  calculate_brightness_from_sun cfg altitude = Ok (BrightnessCurve_target cfg altitude)
  /\ (altitude <= sun_down_alt b ->
      calculate_brightness_from_sun cfg altitude = Ok (min_brightness b))
  /\ (sun_down_alt b < altitude -> sun_high_alt b <= altitude ->
      calculate_brightness_from_sun cfg altitude = Ok (max_brightness b))
  /\ (sun_down_alt b < altitude -> altitude < sun_high_alt b ->
      calculate_brightness_from_sun cfg altitude
      = Ok (min_brightness b
            + (altitude - sun_down_alt b) / (sun_high_alt b - sun_down_alt b)
              * (max_brightness b - min_brightness b)))
  /\ (exists v, calculate_brightness_from_sun DEFAULT_CONFIG 12 = Ok v /\ v == 101 # 2).
Proof.
  intro b. subst b. rewrite !calculate_brightness_from_sun_total.
  split; [reflexivity |]. split; [| split; [| split]].
  - intro H. now rewrite (curve_low cfg altitude H).
  - intros Hlo Hhi. unfold BrightnessCurve_target.
    apply Qle_bool_gt in Hlo. apply Qle_bool_iff in Hhi. now rewrite Hlo, Hhi.
  - intros H1 H2. now rewrite (curve_mid cfg altitude H1 H2).
  - eexists. split; reflexivity.
Qed.




(** ** The two gates *)

(** C4.  The materiality test holds exactly when nothing has been logged yet
    or the new brightness is more than 0.5 away from the last logged one;
    it is what decides, on a tick whose commands all worked, whether the
    last logged brightness moves to the new one.  Against a last logged 40,
    40.3 is no change and 41 is a change. *)
Theorem C4_materiality_gate (get_altitude : Q -> Q -> Q -> outcome Q)
  (cfg : Config) (env : TickEnv) (lat lon alt : Q) (m : Mem)
  (last_logged : option Q) (final_brightness : Q) :
  (brightness_will_change last_logged final_brightness = true
   <-> last_logged = None
       \/ exists logged, last_logged = Some logged
                         /\ 1 # 2 < Qabs (final_brightness - logged))
  /\ brightness_will_change (Some 40) (403 # 10) = false
  /\ brightness_will_change (Some 40) 41 = true
  /\ (get_altitude lat lon (env_now env) = Done alt ->
      let X := iteration get_altitude cfg env (PyNumber lat) (PyNumber lon) m in
      exists calculated,
        calculate_brightness_from_sun cfg alt = Ok calculated
        /\ let final := calculated + user_offset (self_state (mem_of X)) in
           self_last_logged_brightness (mem_of X)
           = if all_written (env_write env) (devices cfg)
                && brightness_will_change (self_last_logged_brightness m) final
             then Some final
             else self_last_logged_brightness m).
Proof.
  split; [| split; [reflexivity | split; [reflexivity |]]].
  - unfold brightness_will_change. destruct last_logged as [logged |].
    + rewrite Qltb_lt. split.
      * intro H. right. now exists logged.
      * intros [H | (l & H & Hl)]; [discriminate | now inversion H; subst].
    + split; auto.
  - intros Halt X.
    exists (BrightnessCurve_target cfg alt).
    split; [apply calculate_brightness_from_sun_total |].
    destruct (iteration_run get_altitude cfg env lat lon m) as (_ & Hm & _).
    destruct (loop_body_run get_altitude cfg env lat lon alt m Halt)
      as (_ & Hoff & _ & _ & Hlog & _).
    subst X. cbv zeta. rewrite Hm, Hoff. exact Hlog.
Qed.

(** C5.  [will_brightness_change_soon] puts the altitude now and the altitude
    [log_before_change_minutes] later through the curve, adds the current
    offset to both and answers true exactly when the two differ by more than
    1; when an altitude cannot be computed it answers true.  It never raises,
    changes nothing and logs nothing. *)
Theorem C5_imminence_gate (get_altitude : Q -> Q -> Q -> outcome Q)
  (cfg : Config) (now lat lon : Q) (m : Mem) :
  let later := now + log_before_change_minutes (system cfg) * 60 in
  let offset := user_offset (self_state m) in
  let X := will_brightness_change_soon get_altitude cfg now (PyNumber lat) (PyNumber lon) m in
  (exists answer, X = (Ok answer, m, []))
  /\ X = (Ok (will_change_soon_spec cfg offset (get_altitude lat lon now)
                (get_altitude lat lon later)), m, [])
  /\ (forall a1 a2 c1 c2,
         get_altitude lat lon now = Done a1 ->
         get_altitude lat lon later = Done a2 ->
         calculate_brightness_from_sun cfg a1 = Ok c1 ->
         calculate_brightness_from_sun cfg a2 = Ok c2 ->
         (result_of X = Ok true <-> 1 < Qabs ((c2 + offset) - (c1 + offset)))
         /\ (result_of X = Ok false <-> Qabs ((c2 + offset) - (c1 + offset)) <= 1))
  /\ (forall what,
         get_altitude lat lon now = Failed what
         \/ get_altitude lat lon later = Failed what ->
         result_of X = Ok true)
  /\ (forall v : pyval,
         will_brightness_change_soon get_altitude cfg now PyNone v m = (Ok true, m, [])
         /\ will_brightness_change_soon get_altitude cfg now v PyNone m = (Ok true, m, [])).
Proof.
  intros later offset X.
  pose proof (will_brightness_change_soon_run get_altitude cfg now lat lon m) as E.
  fold later offset X in E.
  split; [eexists; exact E |]. split; [exact E |]. split; [| split].
  - intros a1 a2 c1 c2 H1 H2 Hc1 Hc2.
    rewrite calculate_brightness_from_sun_total in Hc1, Hc2.
    inversion Hc1; inversion Hc2; subst c1 c2.
    rewrite E, H1, H2. unfold result_of. cbn [fst will_change_soon_spec].
    split; split; intro H.
    + inversion H as [H']. now apply Qltb_lt in H'.
    + apply Qltb_lt in H. now rewrite H.
    + inversion H as [H']. now apply Qltb_ge in H'.
    + apply Qltb_ge in H. now rewrite H.
  - intros what [H | H]; rewrite E, H; unfold will_change_soon_spec.
    + reflexivity.
    + now destruct (get_altitude lat lon now).
  - intro v. split; [reflexivity |]. now destruct v.
Qed.

(** A witness of C5 with the default configuration: a sun climbing from 10 to
    13 degrees within the quarter of an hour moves the curve by 8.25, a
    change is imminent; a sun standing still moves nothing; a failing
    pysolar makes the gate answer true. *)
Lemma C5_imminence_gate_witness :
  let gate sky now :=
    result_of (will_brightness_change_soon sky DEFAULT_CONFIG now
                 (PyNumber poznan_lat) (PyNumber poznan_lon) after_setting_50) in
  gate rising_sun 3000 = Ok true
  /\ gate (sun_at 12) 3000 = Ok false
  /\ gate no_sun 3000 = Ok true.
Proof.
  intro gate. subst gate. cbv beta.
  destruct (C5_imminence_gate rising_sun DEFAULT_CONFIG 3000 poznan_lat poznan_lon
              after_setting_50) as (_ & E1 & _).
  destruct (C5_imminence_gate (sun_at 12) DEFAULT_CONFIG 3000 poznan_lat poznan_lon
              after_setting_50) as (_ & E2 & _).
  destruct (C5_imminence_gate no_sun DEFAULT_CONFIG 3000 poznan_lat poznan_lon
              after_setting_50) as (_ & _ & _ & E3 & _).
  rewrite E1, E2. split; [reflexivity |]. split; [reflexivity |].
  exact (E3 "pysolar"%string (or_introl eq_refl)).
Defined.

(** ** The manual-change detector *)

(** C1.  On a tick that is not the first, with the altitude available and the
    first device readable, a readback further than [manual_change_tolerance]
    from the last brightness set makes the offset [actual - calculated],
    whatever the offset was before, and that offset is written to the state
    file. *)
Theorem C1_manual_change_sets_offset (get_altitude : Q -> Q -> Q -> outcome Q)
  (cfg : Config) (env : TickEnv) (lat lon alt calculated : Q) (actual : Z) (m : Mem) :
  get_altitude lat lon (env_now env) = Done alt ->
  calculate_brightness_from_sun cfg alt = Ok calculated ->
  is_first_run m = false ->
  result_of (get_current_brightness cfg (env_read env) m) = Ok (Some actual) ->
  manual_change_tolerance (brightness cfg)
  < Qabs (inject_Z actual - last_set_brightness m) ->
  let X := iteration get_altitude cfg env (PyNumber lat) (PyNumber lon) m in
  user_offset (self_state (mem_of X)) = inject_Z actual - calculated
  /\ In {| user_offset := inject_Z actual - calculated;
           last_brightness := last_brightness (self_state m) |}
        (saves (trace_of X)).
Proof.
  intros Halt Hcalc Hfirst Hread Hdrift X.
  rewrite calculate_brightness_from_sun_total in Hcalc. inversion Hcalc; subst calculated.
  apply readback_of_result in Hread.
  destruct (iteration_effects get_altitude cfg env lat lon m) as (Hm & _ & Hs & _).
  destruct (loop_body_run get_altitude cfg env lat lon alt m Halt)
    as (_ & Hoff & _ & _ & _ & _ & _ & _ & Hsaves & _).
  fold X in Hm, Hs. rewrite Hm, Hs, Hoff, Hsaves.
  unfold tick_offset, drift_detected, manual_change. rewrite Hread, Hfirst.
  apply Qltb_lt in Hdrift. rewrite Hdrift. cbn [negb andb].
  split; [reflexivity |]. apply in_or_app. left. now left.
Qed.

(** A witness of C1, with the numbers of the specification: the last
    brightness set is 50, the tolerance 2, the readback 60 and the curve at
    55 (the default curve at altitude 150/11); the offset becomes 5. *)
Lemma C1_manual_change_sets_offset_witness :
  let X := iteration (sun_at (150 # 11)) DEFAULT_CONFIG (tick_reading 60)
             (PyNumber poznan_lat) (PyNumber poznan_lon) after_setting_50 in
  exists calculated,
    calculate_brightness_from_sun DEFAULT_CONFIG (150 # 11) = Ok calculated
    /\ calculated == 55
    /\ user_offset (self_state (mem_of X)) = 60 - calculated
    /\ user_offset (self_state (mem_of X)) == 5.
Proof.
  intro X. eexists. split; [reflexivity |]. split; [reflexivity |].
  assert (H := C1_manual_change_sets_offset (sun_at (150 # 11)) DEFAULT_CONFIG
                 (tick_reading 60) poznan_lat poznan_lon (150 # 11) _ 60%Z
                 after_setting_50 eq_refl eq_refl eq_refl eq_refl eq_refl).
  destruct H as [H _]. fold X in H. split; [exact H |]. rewrite H. reflexivity.
Defined.

(** C6, on the failing input.  With the default configuration and the sun at
    altitude 12 the curve is at 50.5.  A tick that is not the first and reads
    60 back where 50 had been set commits [60 - 50.5]: the offset, a whole
    number before, is 9.5 afterwards, in memory and in the state handed to
    [save_state].  The two values are the same in binary64. *)
Theorem C6_detector_commits_a_fraction :
  let env := tick_reading 60 in
  let m := after_setting_50 in
  let X := iteration (sun_at 12) DEFAULT_CONFIG env
             (PyNumber poznan_lat) (PyNumber poznan_lon) m in
  is_first_run m = false
  /\ result_of (get_current_brightness DEFAULT_CONFIG (env_read env) m) = Ok (Some 60%Z)
  /\ is_integer (user_offset (self_state m)) = true
  /\ (exists calculated,
         calculate_brightness_from_sun DEFAULT_CONFIG 12 = Ok calculated
         /\ calculated == 101 # 2
         /\ user_offset (self_state (mem_of X)) = 60 - calculated)
  /\ user_offset (self_state (mem_of X)) == 19 # 2
  /\ is_integer (user_offset (self_state (mem_of X))) = false
  /\ map is_integer (map user_offset (saves (trace_of X))) = [false; false]
  /\ Binary64.calculate_brightness_from_sun 1 100 (-6) 30 12 = 50.5%float
  /\ (60 - Binary64.calculate_brightness_from_sun 1 100 (-6) 30 12)%float = 9.5%float.
Proof.
  repeat split. eexists. repeat split.
Qed.

(** ** Actuation *)

(** C2.  On every tick on which the altitude is available, every device with
    a command gets one, and the percentage sent to each is
    [calculated + offset] truncated to an integer and clamped by the
    configured bounds.  Neither gate has a say: the same commands go out for
    any reading of the clock in [will_brightness_change_soon] and for any last
    logged brightness.  What the gates decide is the announcement in the log,
    made only when both hold. *)
Theorem C2_actuation_on_every_tick (get_altitude : Q -> Q -> Q -> outcome Q)
  (cfg : Config) (env : TickEnv) (lat lon alt : Q) (m : Mem) :
  get_altitude lat lon (env_now env) = Done alt ->
  let X := iteration get_altitude cfg env (PyNumber lat) (PyNumber lon) m in
  exists calculated should_log,
    calculate_brightness_from_sun cfg alt = Ok calculated
    /\ will_brightness_change_soon get_altitude cfg (env_now_soon env)
         (PyNumber lat) (PyNumber lon) m = (Ok should_log, m, [])
    /\ let final_brightness := calculated + user_offset (self_state (mem_of X)) in
       let sent := clamp_percentage cfg final_brightness in
       let will_change :=
         brightness_will_change (self_last_logged_brightness m) final_brightness in
       commands (trace_of X) = map (fun d => (d, sent)) (filter has_command (devices cfg))
       /\ (forall now_soon logged,
              commands (trace_of (iteration get_altitude cfg (with_now_soon now_soon env)
                                    (PyNumber lat) (PyNumber lon)
                                    (with_last_logged logged m)))
              = commands (trace_of X))
       /\ announcements (trace_of X) = (if should_log && will_change then [sent] else [])
       /\ sent = py_max (min_brightness (brightness cfg))
                   (py_min (max_brightness (brightness cfg))
                      (inject_Z (py_int final_brightness)))
       /\ (min_brightness (brightness cfg) <= max_brightness (brightness cfg) ->
           min_brightness (brightness cfg) <= sent <= max_brightness (brightness cfg))
       /\ (min_brightness (brightness cfg) <= inject_Z (py_int final_brightness) ->
           inject_Z (py_int final_brightness) <= max_brightness (brightness cfg) ->
           sent == inject_Z (py_int final_brightness)).
Proof.
  intros Halt X.
  exists (BrightnessCurve_target cfg alt). eexists.
  split; [apply calculate_brightness_from_sun_total |].
  split; [apply will_brightness_change_soon_run |].
  destruct (iteration_effects get_altitude cfg env lat lon m) as (Hm & Hc & _ & Ha).
  destruct (loop_body_run get_altitude cfg env lat lon alt m Halt)
    as (Hcmd & Hoff & _ & _ & _ & _ & _ & Hann & _).
  fold X in Hm, Hc, Ha. cbv zeta. rewrite Hm, Hc, Ha, Hoff, Hcmd, Hann.
  split; [reflexivity |]. split; [| split; [reflexivity | split; [reflexivity | split]]].
  - intros now_soon logged.
    destruct (iteration_effects get_altitude cfg (with_now_soon now_soon env) lat lon
                (with_last_logged logged m)) as (_ & Hc' & _).
    destruct (loop_body_run get_altitude cfg (with_now_soon now_soon env) lat lon alt
                (with_last_logged logged m) Halt) as (Hcmd' & _).
    rewrite Hc', Hcmd'. reflexivity.
  - apply clamp_bounds.
  - apply clamp_inside.
Qed.

(** A witness of C2: the default configuration with the sun at altitude 12 and
    no offset; the curve is at 50.5 and both devices are sent 50. *)
Lemma C2_actuation_on_every_tick_witness :
  let X := iteration (sun_at 12) DEFAULT_CONFIG (tick_reading 50)
             (PyNumber poznan_lat) (PyNumber poznan_lon) after_setting_50 in
  exists sent,
    commands (trace_of X) = map (fun d => (d, sent)) (devices DEFAULT_CONFIG)
    /\ sent == 50.
Proof.
  intro X.
  destruct (C2_actuation_on_every_tick (sun_at 12) DEFAULT_CONFIG (tick_reading 50)
              poznan_lat poznan_lon 12 after_setting_50 eq_refl)
    as (calculated & should_log & Hcalc & _ & Hcmd & _).
  fold X in Hcmd. inversion Hcalc; subst calculated.
  eexists. split; [exact Hcmd | reflexivity].
Defined.

(** ** Recovery from an exception *)

(** C8, refuted as stated.  With a poll interval of 30 seconds and pysolar
    failing, the recovery sleep is 60 seconds: not shorter than the
    interval. *)
Lemma C8_recovery_sleep_not_shorter :
  let cfg := with_update_interval 30 DEFAULT_CONFIG in
  let X := iteration no_sun cfg (tick_reading 50)
             (PyNumber poznan_lat) (PyNumber poznan_lon) after_setting_50 in
  update_interval (system cfg) = 30
  /\ sleeps (trace_of X) = [60]
  /\ Qltb 60 (update_interval (system cfg)) = false.
Proof. repeat split. Qed.

(** C8, amended.  When the body of a tick raises an exception, the iteration
    logs it, sleeps 60 seconds whatever the configuration, and the loop goes
    on with the next tick, still running.  The 60 seconds are shorter than
    the poll interval of the default configuration, 300 seconds. *)
Theorem C8_exception_recovery (get_altitude : Q -> Q -> Q -> outcome Q)
  (cfg : Config) (env : TickEnv) (rest : list TickEnv) (lat lon : Q) (m : Mem)
  (what : string) :
  self_running m = true ->
  let B := loop_body get_altitude cfg env (PyNumber lat) (PyNumber lon) m in
  let X := iteration get_altitude cfg env (PyNumber lat) (PyNumber lon) m in
  let R := run_loop get_altitude cfg rest (PyNumber lat) (PyNumber lon) (mem_of X) in
  result_of B = Raise (Exception what) ->
  trace_of X = trace_of B ++ [Log ERROR (MsgUnexpected what); Sleep 60]
  /\ result_of X = Ok Continue
  /\ self_running (mem_of X) = true
  /\ run_loop get_altitude cfg (env :: rest) (PyNumber lat) (PyNumber lon) m
     = (result_of R, mem_of R, trace_of X ++ trace_of R)
  /\ 60 < update_interval (system DEFAULT_CONFIG).
Proof.
  intros Hrun B X R Hraise.
  destruct (iteration_run get_altitude cfg env lat lon m) as (Hr & Hm & Ht).
  destruct (loop_body_result get_altitude cfg env lat lon m) as (_ & Hrunning).
  fold B in Hm, Ht, Hrunning. fold X in Hr, Hm, Ht.
  rewrite Hraise in Ht.
  split; [exact Ht |]. split; [exact Hr |].
  split; [now rewrite Hm, Hrunning |].
  split; [exact (run_loop_step get_altitude cfg env rest lat lon m Hrun) | reflexivity].
Qed.

(** A witness of the amended C8: pysolar fails on two ticks in a row of the
    default configuration; the loop has slept 60 seconds twice and is still
    running. *)
Lemma C8_exception_recovery_witness :
  let X := run_loop no_sun DEFAULT_CONFIG [tick_reading 50; tick_reading 50]
             (PyNumber poznan_lat) (PyNumber poznan_lon) after_setting_50 in
  sleeps (trace_of X) = [60; 60]
  /\ self_running (mem_of X) = true.
Proof.
  intro X.
  destruct (C8_exception_recovery no_sun DEFAULT_CONFIG (tick_reading 50)
              [tick_reading 50] poznan_lat poznan_lon after_setting_50 "pysolar"
              eq_refl eq_refl) as (_ & _ & _ & H & _).
  subst X. rewrite H. split; reflexivity.
Defined.

(** ** Start-up *)

(** C9.  When the location comes back with latitude 0, whatever the
    longitude, [run] logs that the location could not be established and
    returns: the trace ends there, with no command sent, no sleep and no
    state written, however many ticks the environment had in store. *)
Theorem C9_equator_is_unresolved (get_altitude : Q -> Q -> Q -> outcome Q)
  (cfg : Config) (senv : StartEnv) (envs : list TickEnv) (m m1 : Mem)
  (lat : Q) (lon : pyval) (t : list event) :
  get_location cfg senv m = (Ok (PyNumber lat, lon), m1, t) ->
  lat == 0 ->
  let X := run get_altitude cfg senv envs m in
  X = (Ok tt, m1,
       Log INFO (MsgDevices (map dev_name (devices cfg))) :: t
       ++ [Log ERROR MsgLocationFailed])
  /\ commands (trace_of X) = []
  /\ sleeps (trace_of X) = []
  /\ saves (trace_of X) = []
  /\ mem_of X = m.
Proof.
  intros Hloc Hlat X.
  assert (Hfalsy : truthy_val (PyNumber lat) = false).
  { cbn. unfold truthy. apply Qeq_bool_iff in Hlat. now rewrite Hlat. }
  pose proof (run_unresolved get_altitude cfg senv envs m m1 _ lon t Hloc Hfalsy) as E.
  fold X in E.
  destruct (get_location_mem cfg senv m) as (Hm & Hc & Hs & Hv & _).
  rewrite Hloc in Hm, Hc, Hs, Hv. unfold mem_of, trace_of in Hm, Hc, Hs, Hv.
  cbn [fst snd] in Hm, Hc, Hs, Hv.
  rewrite E. unfold trace_of, mem_of. cbn [fst snd].
  split; [reflexivity |].
  rewrite app_comm_cons, commands_app, sleeps_app, saves_app. cbn.
  rewrite Hc, Hs, Hv. repeat split. exact Hm.
Qed.

(** A witness of C9: a manual location on the equator, with three ticks in
    store. *)
Lemma C9_equator_is_unresolved_witness :
  let cfg := located_at 0 poznan_lon DEFAULT_CONFIG in
  let X := run (sun_at 12) cfg (start_reading (Some 50%Z))
             [tick_reading 50; tick_reading 50; tick_reading 50]
             (init_mem DEFAULT_STATE) in
  trace_of X = [Log INFO (MsgDevices ["Ekran laptopa"; "Monitor Dell"]%string);
                Log ERROR MsgLocationFailed].
Proof.
  intros cfg X.
  destruct (C9_equator_is_unresolved (sun_at 12) cfg (start_reading (Some 50%Z))
              [tick_reading 50; tick_reading 50; tick_reading 50]
              (init_mem DEFAULT_STATE) _ 0 _ _ eq_refl eq_refl) as (H & _).
  fold X in H. rewrite H. reflexivity.
Defined.

(** C10.  When the location is resolved and the first readback is 0, or the
    first device cannot be read, the loop starts with the baseline
    [last_set_brightness] at 50. *)
Theorem C10_baseline_of_a_dark_screen (cfg : Config) (senv : StartEnv) (m m1 : Mem)
  (lat lon : Q) (t : list event) :
  get_location cfg senv m = (Ok (PyNumber lat, PyNumber lon), m1, t) ->
  truthy lat = true ->
  result_of (get_current_brightness cfg (senv_read senv) m1) = Ok (Some 0%Z)
  \/ result_of (get_current_brightness cfg (senv_read senv) m1) = Ok None ->
  let X := run_startup cfg senv m in
  result_of X = Ok (Some (PyNumber lat, PyNumber lon))
  /\ last_set_brightness (mem_of X) = 50
  /\ is_first_run (mem_of X) = true.
Proof.
  intros Hloc Hlat Hread X.
  destruct (run_startup_resolved cfg senv m m1 lat lon t Hloc Hlat) as (Hr & Hm).
  fold X in Hr, Hm. rewrite Hm.
  split; [exact Hr |]. split; [| reflexivity].
  destruct Hread as [H | H]; apply readback_of_result in H;
    cbn [last_set_brightness with_first_run with_last_set]; now rewrite H.
Qed.

(** A witness of C10: the laptop screen of the default configuration reads
    back 0 at the start. *)
Lemma C10_baseline_of_a_dark_screen_witness :
  last_set_brightness
    (mem_of (run_startup DEFAULT_CONFIG (start_reading (Some 0%Z)) (init_mem DEFAULT_STATE)))
  = 50.
Proof.
  destruct (C10_baseline_of_a_dark_screen DEFAULT_CONFIG (start_reading (Some 0%Z))
              (init_mem DEFAULT_STATE) _ poznan_lat poznan_lon _ eq_refl eq_refl
              (or_introl eq_refl)) as (_ & H & _).
  exact H.
Defined.

(** * Further properties of the code *)

(** ** [set_brightness] *)

Lemma all_written_false_iff (write : Device -> outcome unit) (devs : list Device) :
  all_written write devs = false
  <-> exists d what, In d devs /\ has_command d = true /\ write d = Failed what.
Proof.
  unfold all_written. induction devs as [| d devs IH]; cbn [forallb].
  - split; [discriminate | intros (d & w & [] & _)].
  - rewrite andb_false_iff, IH. split.
    + intros [H | (d' & w & Hin & Hc & Hw)].
      * apply orb_false_iff in H. destruct H as [Hc Hw].
        apply negb_false_iff in Hc.
        destruct (write d) as [u | w] eqn:E; [discriminate |].
        exists d, w. repeat split; [now left | exact Hc | exact E].
      * exists d', w. repeat split; [now right | exact Hc | exact Hw].
    + intros (d' & w & [<- | Hin] & Hc & Hw).
      * left. now rewrite Hc, Hw.
      * right. now exists d', w.
Qed.

(** X1.  In [set_brightness] a failing command stops nothing: every device
    with a command still gets it, in the order of the configuration and with
    the same percentage.  The call never raises and changes no state; it
    returns [None] exactly when some command failed, the percentage
    otherwise. *)
Theorem X1_set_brightness_isolates_failures (cfg : Config)
  (write : Device -> outcome unit) (percentage : Q) (should_log : bool)
  (altitude : option Q) (m : Mem) :
  let X := set_brightness cfg write percentage should_log altitude m in
  let sent := clamp_percentage cfg percentage in
  commands (trace_of X) = map (fun d => (d, sent)) (filter has_command (devices cfg))
  /\ mem_of X = m
  /\ (result_of X = Ok None
      <-> exists d what, In d (devices cfg) /\ has_command d = true
                         /\ write d = Failed what)
  /\ (result_of X = Ok (Some sent)
      <-> forall d, In d (devices cfg) -> has_command d = true ->
                    exists u, write d = Done u).
Proof.
  intros X sent.
  destruct (set_brightness_run cfg write percentage should_log altitude m)
    as (t & E & Hc & _).
  fold X sent in E, Hc. rewrite E. unfold trace_of, mem_of, result_of. cbn [fst snd].
  split; [exact Hc |]. split; [reflexivity |].
  pose proof (all_written_false_iff write (devices cfg)) as Hiff.
  destruct (all_written write (devices cfg)) eqn:Hw.
  - split; split.
    + discriminate.
    + intro H. apply Hiff in H. discriminate.
    + intros _ d Hin Hcmd. destruct (write d) as [u | w] eqn:Ed; [now exists u |].
      assert (true = false); [| discriminate].
      apply Hiff. now exists d, w.
    + reflexivity.
  - split; split.
    + intros _. now apply Hiff.
    + reflexivity.
    + discriminate.
    + intro H. exfalso. destruct (proj1 Hiff eq_refl) as (d & w & Hin & Hcmd & Ew).
      destruct (H d Hin Hcmd) as [u Eu]. congruence.
Qed.

(** ** The clamp *)

Lemma clamp_inverted (cfg : Config) (x : Q) :
  max_brightness (brightness cfg) < min_brightness (brightness cfg) ->
  clamp_percentage cfg x = min_brightness (brightness cfg).
Proof.
  intro H. unfold clamp_percentage, py_max.
  destruct (Qltb _ _) eqn:E; [| reflexivity].
  apply Qltb_lt in E.
  pose proof (py_min_upper (max_brightness (brightness cfg)) (inject_Z (py_int x))).
  lra.
Qed.

(** X2.  With the bounds the wrong way round ([max_brightness] below
    [min_brightness]) the clamp gives [min_brightness] whatever the curve and
    the offset say: every command of every tick carries [min_brightness]. *)
Theorem X2_inverted_bounds_send_min (get_altitude : Q -> Q -> Q -> outcome Q)
  (cfg : Config) (env : TickEnv) (lat lon alt : Q) (m : Mem) :
  get_altitude lat lon (env_now env) = Done alt ->
  max_brightness (brightness cfg) < min_brightness (brightness cfg) ->
  let X := iteration get_altitude cfg env (PyNumber lat) (PyNumber lon) m in
  commands (trace_of X)
  = map (fun d => (d, min_brightness (brightness cfg))) (filter has_command (devices cfg)).
Proof.
  intros Halt Hinv X.
  destruct (iteration_effects get_altitude cfg env lat lon m) as (_ & Hc & _).
  destruct (loop_body_run get_altitude cfg env lat lon alt m Halt) as (Hcmd & _).
  fold X in Hc. rewrite Hc, Hcmd. now rewrite clamp_inverted.
Qed.

(** A witness of X2: bounds 80 and 20 the wrong way round, the sun high: both
    devices are sent 80. *)
Lemma X2_inverted_bounds_send_min_witness :
  let cfg := with_bounds 80 20 DEFAULT_CONFIG in
  commands (trace_of (iteration (sun_at 45) cfg (tick_reading 50)
                        (PyNumber poznan_lat) (PyNumber poznan_lon) after_setting_50))
  = map (fun d => (d, 80)) (devices cfg).
Proof.
  intro cfg.
  exact (X2_inverted_bounds_send_min (sun_at 45) cfg (tick_reading 50)
           poznan_lat poznan_lon 45 after_setting_50 eq_refl eq_refl).
Defined.

Lemma py_int_floor (x : Q) : 0 <= x -> py_int x = Qfloor x.
Proof.
  intro H. unfold py_int, Qfloor. destruct x as [n d]. cbn [Qnum Qden].
  apply Z.quot_div_nonneg; [| reflexivity].
  unfold Qle in H. cbn in H. lia.
Qed.

(** X3.  [set_brightness] rounds down: a percentage that is not negative and
    whose integer part lies within the bounds is sent as that integer part,
    at most the percentage and less than one below it. *)
Theorem X3_set_brightness_rounds_down (cfg : Config) (percentage : Q) :
  0 <= percentage ->
  min_brightness (brightness cfg) <= inject_Z (py_int percentage) ->
  inject_Z (py_int percentage) <= max_brightness (brightness cfg) ->
  let sent := clamp_percentage cfg percentage in
  sent <= percentage /\ percentage < sent + 1
  /\ exists n : Z, sent == inject_Z n.
Proof.
  intros H0 Hlo Hhi sent.
  pose proof (clamp_inside cfg percentage Hlo Hhi) as E. fold sent in E.
  rewrite E, (py_int_floor percentage H0).
  split; [apply Qfloor_le |]. split.
  - pose proof (Qlt_floor percentage) as H. rewrite inject_Z_plus in H. exact H.
  - now exists (py_int percentage).
Qed.

(** A witness of X3: the default bounds and 50.5, sent as 50. *)
Lemma X3_set_brightness_rounds_down_witness :
  clamp_percentage DEFAULT_CONFIG (101 # 2) <= 101 # 2
  /\ 101 # 2 < clamp_percentage DEFAULT_CONFIG (101 # 2) + 1.
Proof.
  assert (H0 : 0 <= 101 # 2) by (vm_compute; intro H; discriminate H).
  assert (Hlo : min_brightness (brightness DEFAULT_CONFIG) <= inject_Z (py_int (101 # 2)))
    by (vm_compute; intro H; discriminate H).
  assert (Hhi : inject_Z (py_int (101 # 2)) <= max_brightness (brightness DEFAULT_CONFIG))
    by (vm_compute; intro H; discriminate H).
  destruct (X3_set_brightness_rounds_down DEFAULT_CONFIG (101 # 2) H0 Hlo Hhi)
    as (H1 & H2 & _).
  split; assumption.
Defined.

(** ** The baseline of the detector from tick to tick *)

(** X4.  A tick in which the command of some device fails still counts as
    run ([is_first_run] is cleared), but nothing of it is recorded: the
    baseline [last_set_brightness], the [last_brightness] of the state and the
    last logged brightness stay as they were, although the other devices have
    been sent the new percentage. *)
Theorem X4_failed_write_records_nothing (get_altitude : Q -> Q -> Q -> outcome Q)
  (cfg : Config) (env : TickEnv) (lat lon alt : Q) (m : Mem)
  (d : Device) (what : string) :
  get_altitude lat lon (env_now env) = Done alt ->
  In d (devices cfg) -> has_command d = true -> env_write env d = Failed what ->
  let X := iteration get_altitude cfg env (PyNumber lat) (PyNumber lon) m in
  last_set_brightness (mem_of X) = last_set_brightness m
  /\ last_brightness (self_state (mem_of X)) = last_brightness (self_state m)
  /\ self_last_logged_brightness (mem_of X) = self_last_logged_brightness m
  /\ is_first_run (mem_of X) = false
  /\ List.length (commands (trace_of X)) = List.length (filter has_command (devices cfg)).
Proof.
  intros Halt Hin Hcmd Hfail X.
  assert (Hw : all_written (env_write env) (devices cfg) = false)
    by (apply all_written_false_iff; now exists d, what).
  destruct (iteration_effects get_altitude cfg env lat lon m) as (Hm & Hc & _).
  destruct (loop_body_run get_altitude cfg env lat lon alt m Halt)
    as (Hcs & _ & Hlb & Hls & Hll & Hfr & _).
  fold X in Hm, Hc. rewrite Hm, Hc, Hcs, Hlb, Hls, Hll, Hfr, Hw. cbn [andb].
  repeat split. now rewrite length_map.
Qed.

(** A witness of X4: the monitor of the default configuration does not take
    its command; the baseline stays at 50 although the laptop was sent 100. *)
Lemma X4_failed_write_records_nothing_witness :
  let X := iteration (sun_at 45) DEFAULT_CONFIG (tick_monitor_down 50)
             (PyNumber poznan_lat) (PyNumber poznan_lon) after_setting_50 in
  last_set_brightness (mem_of X) = 50
  /\ List.length (commands (trace_of X)) = 2%nat.
Proof.
  intro X.
  destruct (X4_failed_write_records_nothing (sun_at 45) DEFAULT_CONFIG
              (tick_monitor_down 50) poznan_lat poznan_lon 45 after_setting_50
              {| dev_type := "monitor"; dev_id := Some 1%Z; dev_name := "Monitor Dell" |}
              "ddcutil" eq_refl (or_intror (or_introl eq_refl)) eq_refl eq_refl)
    as (H1 & _ & _ & _ & H2).
  split; [exact H1 | exact H2].
Defined.

(** What the detector of a tick compares the readback with, and what it makes
    of the offset. *)
Lemma detector_against_baseline (get_altitude : Q -> Q -> Q -> outcome Q)
  (cfg : Config) (env : TickEnv) (lat lon alt : Q) (m : Mem) (a : Z) :
  get_altitude lat lon (env_now env) = Done alt ->
  is_first_run m = false ->
  result_of (get_current_brightness cfg (env_read env) m) = Ok (Some a) ->
  let X := iteration get_altitude cfg env (PyNumber lat) (PyNumber lon) m in
  (Qabs (inject_Z a - last_set_brightness m) <= manual_change_tolerance (brightness cfg) ->
   user_offset (self_state (mem_of X)) = user_offset (self_state m))
  /\ (manual_change_tolerance (brightness cfg) < Qabs (inject_Z a - last_set_brightness m) ->
      user_offset (self_state (mem_of X)) = inject_Z a - BrightnessCurve_target cfg alt).
Proof.
  intros Halt Hfirst Hread X.
  apply readback_of_result in Hread.
  destruct (iteration_effects get_altitude cfg env lat lon m) as (Hm & _).
  destruct (loop_body_run get_altitude cfg env lat lon alt m Halt) as (_ & Hoff & _).
  fold X in Hm. rewrite Hm, Hoff.
  unfold tick_offset, drift_detected, manual_change. rewrite Hread, Hfirst. cbn [negb andb].
  split; intro H.
  - apply Qltb_ge in H. now rewrite H.
  - apply Qltb_lt in H. now rewrite H.
Qed.

(** The readback does not depend on the memory. *)
Lemma get_current_brightness_any_mem (cfg : Config) (read : outcome (option Z))
  (m m' : Mem) :
  result_of (get_current_brightness cfg read m)
  = result_of (get_current_brightness cfg read m').
Proof.
  destruct (get_current_brightness_run cfg read m) as (t & E & _).
  destruct (get_current_brightness_run cfg read m') as (t' & E' & _).
  now rewrite E, E'.
Qed.

(** X5.  After a tick whose commands all worked, the detector of the next
    tick measures the readback against the percentage that tick sent: within
    the tolerance of it the offset stays, beyond the tolerance the offset
    becomes [readback - calculated]. *)
Theorem X5_detector_measures_against_last_sent (get_altitude : Q -> Q -> Q -> outcome Q)
  (cfg : Config) (env1 env2 : TickEnv) (lat lon alt1 alt2 : Q) (m : Mem) (a : Z) :
  get_altitude lat lon (env_now env1) = Done alt1 ->
  get_altitude lat lon (env_now env2) = Done alt2 ->
  all_written (env_write env1) (devices cfg) = true ->
  result_of (get_current_brightness cfg (env_read env2) m) = Ok (Some a) ->
  let X1 := iteration get_altitude cfg env1 (PyNumber lat) (PyNumber lon) m in
  let X2 := iteration get_altitude cfg env2 (PyNumber lat) (PyNumber lon) (mem_of X1) in
  exists sent calculated2,
    commands (trace_of X1) = map (fun d => (d, sent)) (filter has_command (devices cfg))
    /\ calculate_brightness_from_sun cfg alt2 = Ok calculated2
    /\ (Qabs (inject_Z a - sent) <= manual_change_tolerance (brightness cfg) ->
        user_offset (self_state (mem_of X2)) = user_offset (self_state (mem_of X1)))
    /\ (manual_change_tolerance (brightness cfg) < Qabs (inject_Z a - sent) ->
        user_offset (self_state (mem_of X2)) = inject_Z a - calculated2).
Proof.
  intros Halt1 Halt2 Hw Hread X1 X2.
  destruct (iteration_effects get_altitude cfg env1 lat lon m) as (Hm & Hc & _).
  destruct (loop_body_run get_altitude cfg env1 lat lon alt1 m Halt1)
    as (Hcs & _ & _ & Hls & _ & Hfr & _).
  fold X1 in Hm, Hc. rewrite <- Hm in Hls, Hfr. rewrite Hw in Hls.
  rewrite (get_current_brightness_any_mem cfg _ m (mem_of X1)) in Hread.
  destruct (detector_against_baseline get_altitude cfg env2 lat lon alt2 (mem_of X1) a
              Halt2 Hfr Hread) as (Hin & Hout).
  fold X2 in Hin, Hout. rewrite Hls in Hin, Hout.
  eexists. exists (BrightnessCurve_target cfg alt2).
  split; [rewrite Hc; exact Hcs |].
  split; [apply calculate_brightness_from_sun_total |].
  split; assumption.
Qed.

(** A witness of X5: the default configuration with the sun at altitude 10;
    the first tick sends 45, the second reads 45 back where the earlier
    baseline was 50, and leaves the offset alone. *)
Lemma X5_detector_measures_against_last_sent_witness :
  let X1 := iteration (sun_at 10) DEFAULT_CONFIG (tick_reading 50)
              (PyNumber poznan_lat) (PyNumber poznan_lon) after_setting_50 in
  let X2 := iteration (sun_at 10) DEFAULT_CONFIG (tick_reading 45)
              (PyNumber poznan_lat) (PyNumber poznan_lon) (mem_of X1) in
  user_offset (self_state (mem_of X2)) = user_offset (self_state (mem_of X1)).
Proof.
  intros X1 X2.
  destruct (X5_detector_measures_against_last_sent (sun_at 10) DEFAULT_CONFIG
              (tick_reading 50) (tick_reading 45) poznan_lat poznan_lon 10 10
              after_setting_50 45 eq_refl eq_refl eq_refl eq_refl)
    as (sent & calculated2 & Hc & _ & Hin & _).
  fold X1 X2 in Hc, Hin. apply Hin.
  vm_compute in Hc. injection Hc as Hsent _. subst sent.
  vm_compute. intro Hgt. discriminate Hgt.
Defined.

(** X6.  After a tick in which some command failed, the detector of the next
    tick still measures against the old baseline: a readback further than the
    tolerance from it is taken for a manual change and the offset becomes
    [readback - calculated], also when the readback is what the failed tick
    itself sent to the first device. *)
Theorem X6_stale_baseline_after_failed_write (get_altitude : Q -> Q -> Q -> outcome Q)
  (cfg : Config) (env1 env2 : TickEnv) (lat lon alt1 alt2 : Q) (m : Mem) (a : Z) :
  get_altitude lat lon (env_now env1) = Done alt1 ->
  get_altitude lat lon (env_now env2) = Done alt2 ->
  all_written (env_write env1) (devices cfg) = false ->
  result_of (get_current_brightness cfg (env_read env2) m) = Ok (Some a) ->
  manual_change_tolerance (brightness cfg) < Qabs (inject_Z a - last_set_brightness m) ->
  let X1 := iteration get_altitude cfg env1 (PyNumber lat) (PyNumber lon) m in
  let X2 := iteration get_altitude cfg env2 (PyNumber lat) (PyNumber lon) (mem_of X1) in
  exists calculated2,
    calculate_brightness_from_sun cfg alt2 = Ok calculated2
    /\ user_offset (self_state (mem_of X2)) = inject_Z a - calculated2.
Proof.
  intros Halt1 Halt2 Hw Hread Hdrift X1 X2.
  destruct (iteration_effects get_altitude cfg env1 lat lon m) as (Hm & _).
  destruct (loop_body_run get_altitude cfg env1 lat lon alt1 m Halt1)
    as (_ & _ & _ & Hls & _ & Hfr & _).
  fold X1 in Hm. rewrite <- Hm in Hls, Hfr. rewrite Hw in Hls.
  rewrite (get_current_brightness_any_mem cfg _ m (mem_of X1)) in Hread.
  destruct (detector_against_baseline get_altitude cfg env2 lat lon alt2 (mem_of X1) a
              Halt2 Hfr Hread) as (_ & Hout).
  fold X2 in Hout. rewrite Hls in Hout.
  exists (BrightnessCurve_target cfg alt2).
  split; [apply calculate_brightness_from_sun_total | now apply Hout].
Qed.

(** A witness of X6: the default configuration under a climbing sun, the
    monitor out of order.  The first tick sends 45 to the laptop and keeps
    the baseline of 50; five minutes later the laptop reads 45 back, the
    curve is at 47.75, and the offset becomes -2.75. *)
Lemma X6_stale_baseline_after_failed_write_witness :
  let X1 := iteration rising_sun DEFAULT_CONFIG (at_time 3000 (tick_monitor_down 50))
              (PyNumber poznan_lat) (PyNumber poznan_lon) after_setting_50 in
  let X2 := iteration rising_sun DEFAULT_CONFIG (at_time 3300 (tick_monitor_down 45))
              (PyNumber poznan_lat) (PyNumber poznan_lon) (mem_of X1) in
  user_offset (self_state (mem_of X1)) == 0
  /\ user_offset (self_state (mem_of X2)) == - (11 # 4).
Proof.
  intros X1 X2.
  destruct (X6_stale_baseline_after_failed_write rising_sun DEFAULT_CONFIG
              (at_time 3000 (tick_monitor_down 50)) (at_time 3300 (tick_monitor_down 45))
              poznan_lat poznan_lon (3000 / 300) (3300 / 300) after_setting_50 45
              eq_refl eq_refl eq_refl eq_refl eq_refl)
    as (calculated2 & Hcalc & Hoff).
  fold X1 X2 in Hoff. split; [reflexivity |].
  rewrite Hoff. injection Hcalc as <-. reflexivity.
Defined.

(** ** The loop as a whole *)

Section LoopInvariants.

Variable get_altitude : Q -> Q -> Q -> outcome Q.
Variable cfg : Config.
Variables lat lon : Q.

(** When pysolar fails, the iteration leaves the memory alone and sleeps 60
    seconds. *)
Lemma iteration_fails (env : TickEnv) (what : string) (m : Mem) :
  get_altitude lat lon (env_now env) = Failed what ->
  let X := iteration get_altitude cfg env (PyNumber lat) (PyNumber lon) m in
  mem_of X = m /\ commands (trace_of X) = [] /\ saves (trace_of X) = []
  /\ sleeps (trace_of X) = [60].
Proof.
  intros H X.
  destruct (iteration_run get_altitude cfg env lat lon m) as (_ & Hm & Ht).
  destruct (loop_body_fails get_altitude cfg env lat lon what m H) as (t & E & Hc & Hs & Hv & _).
  rewrite E in Hm, Ht.
  unfold mem_of at 2 in Hm. unfold trace_of at 2, result_of in Ht.
  cbn [fst snd] in Hm, Ht. fold X in Hm, Ht.
  rewrite Hm, Ht, commands_app, saves_app, sleeps_app, Hc, Hs, Hv. repeat split.
Qed.

(** Every iteration sleeps exactly once: for the poll interval, or for 60
    seconds when its body raised. *)
Lemma iteration_sleeps_once (env : TickEnv) (m : Mem) :
  let X := iteration get_altitude cfg env (PyNumber lat) (PyNumber lon) m in
  sleeps (trace_of X) = [update_interval (system cfg)] \/ sleeps (trace_of X) = [60].
Proof.
  intro X.
  destruct (get_altitude lat lon (env_now env)) as [alt | what] eqn:Halt.
  - destruct (iteration_run get_altitude cfg env lat lon m) as (_ & _ & Ht).
    destruct (loop_body_run get_altitude cfg env lat lon alt m Halt)
      as (_ & _ & _ & _ & _ & _ & _ & _ & _ & Hres).
    fold X in Ht. rewrite Ht, sleeps_app.
    destruct (Qltb (update_interval (system cfg)) 0); destruct Hres as [Hr Hs];
      rewrite Hr, Hs; [right | left]; reflexivity.
  - right. now destruct (iteration_fails env what m Halt) as (_ & _ & _ & H).
Qed.

(** A property of the memory that every iteration keeps is kept by the loop. *)
Lemma run_loop_keeps (P : Mem -> Prop) :
  (forall env m, P m ->
                 P (mem_of (iteration get_altitude cfg env (PyNumber lat) (PyNumber lon) m))) ->
  forall envs m, P m ->
                 P (mem_of (run_loop get_altitude cfg envs (PyNumber lat) (PyNumber lon) m)).
Proof.
  intros Hstep envs. induction envs as [| env rest IH]; intros m HP.
  - exact HP.
  - destruct (self_running m) eqn:Hrun.
    + rewrite (run_loop_step get_altitude cfg env rest lat lon m Hrun).
      unfold mem_of at 1. cbn [fst snd]. apply IH, Hstep, HP.
    + cbn [run_loop]. unfold bind, get. rewrite Hrun. exact HP.
Qed.

Lemma iteration_keeps_running (env : TickEnv) (m : Mem) :
  self_running (mem_of (iteration get_altitude cfg env (PyNumber lat) (PyNumber lon) m))
  = self_running m.
Proof.
  destruct (iteration_run get_altitude cfg env lat lon m) as (_ & Hm & _).
  destruct (loop_body_result get_altitude cfg env lat lon m) as (_ & H).
  cbv zeta in Hm, H. now rewrite Hm.
Qed.

(** The loop returns without an exception, still running, one sleep per tick. *)
Lemma run_loop_total (envs : list TickEnv) (m : Mem) :
  self_running m = true ->
  let X := run_loop get_altitude cfg envs (PyNumber lat) (PyNumber lon) m in
  result_of X = Ok tt
  /\ self_running (mem_of X) = true
  /\ List.length (sleeps (trace_of X)) = List.length envs
  /\ Forall (fun s => s = update_interval (system cfg) \/ s = 60) (sleeps (trace_of X)).
Proof.
  revert m. induction envs as [| env rest IH]; intros m Hrun X.
  - subst X. split; [reflexivity |]. split; [exact Hrun |].
    split; [reflexivity | constructor].
  - subst X. rewrite (run_loop_step get_altitude cfg env rest lat lon m Hrun).
    set (X1 := iteration get_altitude cfg env (PyNumber lat) (PyNumber lon) m).
    set (R := run_loop get_altitude cfg rest (PyNumber lat) (PyNumber lon) (mem_of X1)).
    change (result_of (result_of R, mem_of R, trace_of X1 ++ trace_of R))
      with (result_of R).
    change (mem_of (result_of R, mem_of R, trace_of X1 ++ trace_of R)) with (mem_of R).
    change (trace_of (result_of R, mem_of R, trace_of X1 ++ trace_of R))
      with (trace_of X1 ++ trace_of R).
    assert (Hrun1 : self_running (mem_of X1) = true)
      by (unfold X1; now rewrite iteration_keeps_running).
    destruct (IH (mem_of X1) Hrun1) as (Hr & Hk & Hl & Hf). fold R in Hr, Hk, Hl, Hf.
    split; [exact Hr |]. split; [exact Hk |].
    rewrite sleeps_app, length_app, Hl.
    destruct (iteration_sleeps_once env m) as [Hs | Hs]; fold X1 in Hs; rewrite Hs;
      (split; [reflexivity |]); apply Forall_app; split; try exact Hf;
      constructor; auto.
Qed.

(** X7.  The loop cannot be stopped from inside: for every environment it
    returns without an exception after the last tick, [self.running] still
    set, having slept exactly once per tick, each time for the poll interval
    or for 60 seconds. *)
Theorem X7_loop_never_raises_and_sleeps_every_tick (envs : list TickEnv) (m : Mem) :
  self_running m = true ->
  let X := run_loop get_altitude cfg envs (PyNumber lat) (PyNumber lon) m in
  result_of X = Ok tt
  /\ self_running (mem_of X) = true
  /\ List.length (sleeps (trace_of X)) = List.length envs
  /\ Forall (fun s => s = update_interval (system cfg) \/ s = 60) (sleeps (trace_of X)).
Proof. exact (run_loop_total envs m). Qed.

(** What an iteration hands to [save_state] last is the state it leaves in
    memory; an iteration that saves nothing leaves the state alone. *)
Lemma iteration_saves_memory (env : TickEnv) (m : Mem) :
  let X := iteration get_altitude cfg env (PyNumber lat) (PyNumber lon) m in
  last (saves (trace_of X)) (self_state m) = self_state (mem_of X).
Proof.
  intro X.
  destruct (get_altitude lat lon (env_now env)) as [alt | what] eqn:Halt.
  - destruct (iteration_effects get_altitude cfg env lat lon m) as (Hm & _ & Hs & _).
    destruct (loop_body_run get_altitude cfg env lat lon alt m Halt)
      as (_ & Hoff & Hlb & _ & _ & _ & _ & _ & Hsaves & _).
    fold X in Hm, Hs. rewrite Hs, Hsaves. rewrite <- Hm in Hoff, Hlb.
    destruct (self_state (mem_of X)) as [o b]. cbn [user_offset last_brightness] in Hoff, Hlb.
    subst o b.
    destruct (all_written (env_write env) (devices cfg));
      destruct (drift_detected cfg m (readback cfg (env_read env))) eqn:Hd;
      cbn [app last]; try reflexivity.
    unfold tick_offset. rewrite Hd.
    destruct (self_state m) as [o b]; destruct (readback cfg (env_read env)); reflexivity.
  - destruct (iteration_fails env what m Halt) as (Hm & _ & Hs & _).
    fold X in Hm, Hs. now rewrite Hm, Hs.
Qed.

Lemma last_default_irrelevant {A} (l : list A) (a d d' : A) :
  last (a :: l) d = last (a :: l) d'.
Proof.
  revert a. induction l as [| b l IH]; intro a; [reflexivity |].
  change (last (b :: l) d = last (b :: l) d'). apply IH.
Qed.

Lemma last_app_default {A} (l1 l2 : list A) (d : A) :
  last (l1 ++ l2) d = last l2 (last l1 d).
Proof.
  induction l1 as [| x l1 IH]; [reflexivity |].
  destruct l2 as [| a l2].
  - now rewrite app_nil_r.
  - transitivity (last (l1 ++ a :: l2) d).
    + cbn [app]. now destruct l1.
    + rewrite IH. apply last_default_irrelevant.
Qed.

(** X8.  Nothing the loop changes in [self.state] goes unsaved: after any
    number of ticks the state in memory is the last state handed to
    [save_state], or the state the loop started with when nothing was. *)
Theorem X8_memory_is_last_saved_state (envs : list TickEnv) (m : Mem) :
  let X := run_loop get_altitude cfg envs (PyNumber lat) (PyNumber lon) m in
  last (saves (trace_of X)) (self_state m) = self_state (mem_of X).
Proof.
  revert m. induction envs as [| env rest IH]; intros m X; [reflexivity |].
  subst X. destruct (self_running m) eqn:Hrun.
  - rewrite (run_loop_step get_altitude cfg env rest lat lon m Hrun).
    set (X1 := iteration get_altitude cfg env (PyNumber lat) (PyNumber lon) m).
    set (R := run_loop get_altitude cfg rest (PyNumber lat) (PyNumber lon) (mem_of X1)).
    change (mem_of (result_of R, mem_of R, trace_of X1 ++ trace_of R)) with (mem_of R).
    change (trace_of (result_of R, mem_of R, trace_of X1 ++ trace_of R))
      with (trace_of X1 ++ trace_of R).
    rewrite saves_app, last_app_default.
    unfold X1 at 1. rewrite iteration_saves_memory. fold X1. apply IH.
  - cbn [run_loop]. unfold bind, get. now rewrite Hrun.
Qed.

(** The [last_brightness] of the state is the baseline of the detector. *)
Definition baseline_recorded (m : Mem) : Prop :=
  last_brightness (self_state m) = last_set_brightness m.

Lemma iteration_keeps_baseline_recorded (env : TickEnv) (m : Mem) :
  baseline_recorded m ->
  baseline_recorded (mem_of (iteration get_altitude cfg env (PyNumber lat) (PyNumber lon) m)).
Proof.
  unfold baseline_recorded. intro H.
  destruct (get_altitude lat lon (env_now env)) as [alt | what] eqn:Halt.
  - destruct (iteration_effects get_altitude cfg env lat lon m) as (Hm & _).
    destruct (loop_body_run get_altitude cfg env lat lon alt m Halt)
      as (_ & _ & Hlb & Hls & _).
    cbv zeta in Hm. rewrite Hm, Hlb, Hls.
    now destruct (all_written (env_write env) (devices cfg)).
  - destruct (iteration_fails env what m Halt) as (Hm & _). cbv zeta in Hm.
    now rewrite Hm.
Qed.

(** X9.  A tick whose commands all work makes the [last_brightness] of the
    state and the baseline [last_set_brightness] the same number, and no
    later tick separates them again. *)
Theorem X9_state_records_the_baseline (env : TickEnv) (envs : list TickEnv)
  (alt : Q) (m : Mem) :
  get_altitude lat lon (env_now env) = Done alt ->
  all_written (env_write env) (devices cfg) = true ->
  let X1 := iteration get_altitude cfg env (PyNumber lat) (PyNumber lon) m in
  let X := run_loop get_altitude cfg envs (PyNumber lat) (PyNumber lon) (mem_of X1) in
  last_brightness (self_state (mem_of X1)) = last_set_brightness (mem_of X1)
  /\ last_brightness (self_state (mem_of X)) = last_set_brightness (mem_of X).
Proof.
  intros Halt Hw X1 X.
  assert (H1 : baseline_recorded (mem_of X1)).
  { unfold baseline_recorded.
    destruct (iteration_effects get_altitude cfg env lat lon m) as (Hm & _).
    destruct (loop_body_run get_altitude cfg env lat lon alt m Halt)
      as (_ & _ & Hlb & Hls & _).
    fold X1 in Hm. rewrite Hm, Hlb, Hls, Hw. reflexivity. }
  split; [exact H1 |].
  exact (run_loop_keeps baseline_recorded iteration_keeps_baseline_recorded envs _ H1).
Qed.

End LoopInvariants.

(** A witness of X7: three ticks of the default configuration, pysolar out of
    order throughout: three sleeps, the loop still running. *)
Lemma X7_loop_never_raises_and_sleeps_every_tick_witness :
  let X := run_loop no_sun DEFAULT_CONFIG [tick_reading 50; tick_reading 50; tick_reading 50]
             (PyNumber poznan_lat) (PyNumber poznan_lon) after_setting_50 in
  result_of X = Ok tt /\ List.length (sleeps (trace_of X)) = 3%nat.
Proof.
  intro X.
  destruct (X7_loop_never_raises_and_sleeps_every_tick no_sun DEFAULT_CONFIG
              poznan_lat poznan_lon [tick_reading 50; tick_reading 50; tick_reading 50]
              after_setting_50 eq_refl) as (H1 & _ & H2 & _).
  split; [exact H1 | exact H2].
Defined.

(** A witness of X9: a first tick of the default configuration under the
    climbing sun, then one with the monitor out of order. *)
Lemma X9_state_records_the_baseline_witness :
  let X1 := iteration rising_sun DEFAULT_CONFIG (at_time 3000 (tick_reading 50))
              (PyNumber poznan_lat) (PyNumber poznan_lon) (init_mem DEFAULT_STATE) in
  let X := run_loop rising_sun DEFAULT_CONFIG [at_time 3300 (tick_monitor_down 45)]
             (PyNumber poznan_lat) (PyNumber poznan_lon) (mem_of X1) in
  last_brightness (self_state (mem_of X)) = last_set_brightness (mem_of X).
Proof.
  intros X1 X.
  exact (proj2 (X9_state_records_the_baseline rising_sun DEFAULT_CONFIG
                  poznan_lat poznan_lon (at_time 3000 (tick_reading 50))
                  [at_time 3300 (tick_monitor_down 45)] (3000 / 300)
                  (init_mem DEFAULT_STATE) eq_refl eq_refl)).
Defined.

(** ** [run] from the start *)

(** The part of [run] before the loop only logs, and leaves [self.running]
    alone. *)
Lemma run_startup_quiet (cfg : Config) (senv : StartEnv) (m : Mem) :
  quiet (trace_of (run_startup cfg senv m))
  /\ self_running (mem_of (run_startup cfg senv m)) = self_running m.
Proof.
  destruct (get_location_mem cfg senv m) as (Hm & Hq).
  destruct (get_location cfg senv m) as [[[[la lo] | e] m1] t] eqn:E;
    unfold mem_of, trace_of in Hm, Hq; cbn [fst snd] in Hm, Hq; subst m1.
  - destruct (truthy_val la) eqn:Ht.
    + destruct (format_location la lo) as [msg | e] eqn:Ef.
      * destruct (get_current_brightness_run cfg (senv_read senv) m) as (t0 & E0 & Q0).
        assert (Hmsg : forall p a o, msg <> MsgSetBrightness p a o).
        { destruct la, lo; try discriminate. injection Ef as <-. discriminate. }
        eassert (Eq : run_startup cfg senv m = _).
        { unfold run_startup.
          eapply bind_step; [reflexivity |].
          eapply bind_step; [exact E |].
          cbn [fst snd]. rewrite Ht, Ef. cbn [negb lift].
          eapply bind_step; [reflexivity |].
          eapply bind_step; [reflexivity |].
          eapply bind_step; [exact E0 |].
          eapply bind_step; [reflexivity |].
          eapply bind_step; [reflexivity |].
          reflexivity. }
        rewrite Eq. unfold mem_of, trace_of. cbn [fst snd]. split; [| reflexivity].
        repeat apply quiet_app; auto with quiet. now apply quiet_log.
      * eassert (Eq : run_startup cfg senv m = _).
        { unfold run_startup.
          eapply bind_step; [reflexivity |].
          eapply bind_step; [exact E |].
          cbn [fst snd]. rewrite Ht, Ef. cbn [negb lift].
          apply bind_raise. reflexivity. }
        rewrite Eq. unfold mem_of, trace_of. cbn [fst snd]. split; [| reflexivity].
        repeat apply quiet_app; auto with quiet.
    + eassert (Eq : run_startup cfg senv m = _).
      { unfold run_startup.
        eapply bind_step; [reflexivity |].
        eapply bind_step; [exact E |].
        cbn [fst snd]. rewrite Ht. cbn [negb].
        eapply bind_step; [reflexivity |].
        reflexivity. }
      rewrite Eq. unfold mem_of, trace_of. cbn [fst snd]. split; [| reflexivity].
      repeat apply quiet_app; auto with quiet.
  - eassert (Eq : run_startup cfg senv m = _).
    { unfold run_startup.
      eapply bind_step; [reflexivity |].
      apply bind_raise. exact E. }
    rewrite Eq. unfold mem_of, trace_of. cbn [fst snd]. split; [| reflexivity].
    repeat apply quiet_app; auto with quiet.
Qed.

(** With a resolved location [run] is its start followed by the loop. *)
Lemma run_resolved (get_altitude : Q -> Q -> Q -> outcome Q) (cfg : Config)
  (senv : StartEnv) (envs : list TickEnv) (m m1 : Mem) (lat lon : Q) (t : list event) :
  get_location cfg senv m = (Ok (PyNumber lat, PyNumber lon), m1, t) ->
  truthy lat = true ->
  let S := run_startup cfg senv m in
  let R := run_loop get_altitude cfg envs (PyNumber lat) (PyNumber lon) (mem_of S) in
  run get_altitude cfg senv envs m = (result_of R, mem_of R, trace_of S ++ trace_of R).
Proof.
  intros Hloc Hlat S R.
  destruct (run_startup_resolved cfg senv m m1 lat lon t Hloc Hlat) as (Hr & _).
  unfold run, bind. subst R S.
  destruct (run_startup cfg senv m) as [[r ms] ts].
  unfold result_of in Hr. cbn [fst] in Hr. subst r.
  cbn [mem_of trace_of fst snd].
  now destruct (run_loop get_altitude cfg envs (PyNumber lat) (PyNumber lon) ms) as [[r2 m2] t2].
Qed.

(** X10.  With a manual location whose latitude is a number other than 0 and
    whose longitude is a number, [run] never raises: it returns after the
    last tick with [self.running] still set, having slept once per tick and
    not at all before the first. *)
Theorem X10_run_never_raises (get_altitude : Q -> Q -> Q -> outcome Q) (cfg : Config)
  (senv : StartEnv) (envs : list TickEnv) (m : Mem) (lat lon : Q) :
  use_auto_location (location cfg) = false ->
  manual_latitude (location cfg) = Some lat ->
  manual_longitude (location cfg) = Some lon ->
  ~ lat == 0 ->
  self_running m = true ->
  let X := run get_altitude cfg senv envs m in
  result_of X = Ok tt
  /\ self_running (mem_of X) = true
  /\ List.length (sleeps (trace_of X)) = List.length envs.
Proof.
  intros Hauto Hlat Hlon Hnz Hrun X.
  assert (Hloc : get_location cfg senv m = (Ok (PyNumber lat, PyNumber lon), m, [])).
  { unfold get_location. now rewrite Hauto, Hlat, Hlon. }
  assert (Ht : truthy lat = true).
  { unfold truthy. destruct (Qeq_bool lat 0) eqn:E; [| reflexivity].
    apply Qeq_bool_iff in E. contradiction. }
  pose proof (run_resolved get_altitude cfg senv envs m m lat lon [] Hloc Ht) as E.
  cbv zeta in E. fold X in E. rewrite E.
  destruct (run_startup_quiet cfg senv m) as ((_ & Hs & _) & Hk).
  destruct (run_loop_total get_altitude cfg lat lon envs
              (mem_of (run_startup cfg senv m))) as (H1 & H2 & H3 & _);
    [now rewrite Hk |].
  set (S := run_startup cfg senv m) in *.
  set (R := run_loop get_altitude cfg envs (PyNumber lat) (PyNumber lon) (mem_of S)) in *.
  change (result_of (result_of R, mem_of R, trace_of S ++ trace_of R)) with (result_of R).
  change (mem_of (result_of R, mem_of R, trace_of S ++ trace_of R)) with (mem_of R).
  change (trace_of (result_of R, mem_of R, trace_of S ++ trace_of R))
    with (trace_of S ++ trace_of R).
  rewrite sleeps_app, Hs. repeat split; assumption.
Qed.

(** A witness of X10: the default configuration, two ticks. *)
Lemma X10_run_never_raises_witness :
  let X := run (sun_at 12) DEFAULT_CONFIG (start_reading (Some 50%Z))
             [tick_reading 50; tick_reading 50] (init_mem DEFAULT_STATE) in
  result_of X = Ok tt /\ List.length (sleeps (trace_of X)) = 2%nat.
Proof.
  intro X.
  assert (Hnz : ~ poznan_lat == 0) by (vm_compute; intro H; discriminate H).
  destruct (X10_run_never_raises (sun_at 12) DEFAULT_CONFIG (start_reading (Some 50%Z))
              [tick_reading 50; tick_reading 50] (init_mem DEFAULT_STATE)
              poznan_lat poznan_lon eq_refl eq_refl eq_refl Hnz eq_refl) as (H1 & _ & H2).
  split; [exact H1 | exact H2].
Defined.

(** Formatting a longitude that is not a number ends [run]. *)
Lemma run_raises_on_format (get_altitude : Q -> Q -> Q -> outcome Q)
  (cfg : Config) (senv : StartEnv) (envs : list TickEnv) (m m1 : Mem)
  (lat : Q) (lon : pyval) (t : list event) :
  get_location cfg senv m = (Ok (PyNumber lat, lon), m1, t) ->
  truthy lat = true ->
  (forall x, lon <> PyNumber x) ->
  run get_altitude cfg senv envs m
  = (Raise (Exception "TypeError"), m1,
     Log INFO (MsgDevices (map dev_name (devices cfg))) :: t).
Proof.
  intros Hloc Hlat Hlon. unfold run, run_startup.
  unfold bind at 1. unfold bind at 1. unfold log_message at 1, emit at 1. cbv beta iota.
  unfold bind at 1. rewrite Hloc. cbn [fst snd truthy_val]. rewrite Hlat. cbn [negb].
  destruct lon as [| x |]; [| exfalso; now apply (Hlon x) |];
    unfold bind, lift, raise; cbn; now rewrite app_nil_r.
Qed.

(** X11.  When the latitude is a number other than 0 and the longitude is
    not a number ([None], as with a manual longitude left out), formatting
    the location raises [TypeError] outside every handler: [run] ends with
    that exception before the first tick. *)
Theorem X11_missing_longitude_crashes_run (get_altitude : Q -> Q -> Q -> outcome Q)
  (cfg : Config) (senv : StartEnv) (envs : list TickEnv) (m m1 : Mem)
  (lat : Q) (lon : pyval) (t : list event) :
  get_location cfg senv m = (Ok (PyNumber lat, lon), m1, t) ->
  truthy lat = true ->
  (forall x, lon <> PyNumber x) ->
  run get_altitude cfg senv envs m
  = (Raise (Exception "TypeError"), m1,
     Log INFO (MsgDevices (map dev_name (devices cfg))) :: t).
Proof. apply run_raises_on_format. Qed.

(** A witness of X11: the default configuration with the manual longitude
    left out, three ticks in store. *)
Lemma X11_missing_longitude_crashes_run_witness :
  let cfg := with_location (Some poznan_lat) None DEFAULT_CONFIG in
  run (sun_at 12) cfg (start_reading (Some 50%Z))
    [tick_reading 50; tick_reading 50; tick_reading 50] (init_mem DEFAULT_STATE)
  = (Raise (Exception "TypeError"), init_mem DEFAULT_STATE,
     [Log INFO (MsgDevices ["Ekran laptopa"; "Monitor Dell"]%string)]).
Proof.
  intro cfg.
  assert (H : forall x, PyNone <> PyNumber x) by discriminate.
  exact (X11_missing_longitude_crashes_run (sun_at 12) cfg (start_reading (Some 50%Z))
           [tick_reading 50; tick_reading 50; tick_reading 50] (init_mem DEFAULT_STATE)
           _ poznan_lat PyNone [] eq_refl eq_refl H).
Defined.

(** X12.  With automatic location, when GeoClue gives no pair of coordinates
    and the IP lookup fails or comes back without coordinates, [run] tries
    both, logs that the location could not be established and returns
    without a tick. *)
Theorem X12_no_location_no_polling (get_altitude : Q -> Q -> Q -> outcome Q)
  (cfg : Config) (senv : StartEnv) (envs : list TickEnv) (m : Mem) :
  use_auto_location (location cfg) = true ->
  (forall pair, senv_geoclue senv <> Done (Some pair)) ->
  (forall g, senv_geocoder senv = Done g -> latlng g = []) ->
  run get_altitude cfg senv envs m
  = (Ok tt, m,
     [Log INFO (MsgDevices (map dev_name (devices cfg)));
      Log INFO MsgGeoclueAttempt;
      Log WARN MsgGeoclueUnavailable;
      Log ERROR MsgLocationFailed]).
Proof.
  intros Hauto Hgeo Hip.
  assert (Hloc : get_location cfg senv m
                 = (Ok (PyNone, PyNone), m,
                    [Log INFO MsgGeoclueAttempt; Log WARN MsgGeoclueUnavailable])).
  { unfold get_location. rewrite Hauto. cbn [negb].
    unfold get_location_geoclue, get_location_ip, try_except, bind, call, lift, ret, raise,
      log_message, emit, py_index.
    destruct (senv_geoclue senv) as [[pair |] | w] eqn:Eg;
      [exfalso; now apply (Hgeo pair) | |];
      cbn; destruct (senv_geocoder senv) as [g | w'] eqn:Ei; cbn; try reflexivity;
      rewrite (Hip g eq_refl); reflexivity. }
  exact (run_unresolved get_altitude cfg senv envs m m PyNone PyNone _ Hloc eq_refl).
Qed.

(** A witness of X12: both lookups out of order. *)
Lemma X12_no_location_no_polling_witness :
  result_of (run (sun_at 12) (auto_located DEFAULT_CONFIG) (start_reading (Some 50%Z))
               [tick_reading 50; tick_reading 50] (init_mem DEFAULT_STATE))
  = Ok tt.
Proof.
  assert (H1 : forall pair : Q * Q, @Failed (option (Q * Q)) "where-am-i" <> Done (Some pair))
    by discriminate.
  assert (H2 : forall g, @Failed GeoResponse "geocoder" = Done g -> latlng g = [])
    by discriminate.
  now rewrite (X12_no_location_no_polling (sun_at 12) (auto_located DEFAULT_CONFIG)
                 (start_reading (Some 50%Z)) [tick_reading 50; tick_reading 50]
                 (init_mem DEFAULT_STATE) eq_refl H1 H2).
Defined.

(** The loop is entered with two numbers only, the latitude not 0. *)
Lemma run_startup_numbers (cfg : Config) (senv : StartEnv) (m : Mem) (lat lon : pyval) :
  result_of (run_startup cfg senv m) = Ok (Some (lat, lon)) ->
  exists x y, lat = PyNumber x /\ lon = PyNumber y /\ truthy x = true.
Proof.
  destruct (get_location cfg senv m) as [[[[la lo] | e] m1] t] eqn:E.
  - destruct (truthy_val la) eqn:Ht.
    + destruct (format_location la lo) as [msg | e] eqn:Ef.
      * destruct (get_current_brightness_run cfg (senv_read senv) m1) as (t0 & E0 & _).
        eassert (Eq : run_startup cfg senv m = _).
        { unfold run_startup.
          eapply bind_step; [reflexivity |].
          eapply bind_step; [exact E |].
          cbn [fst snd]. rewrite Ht, Ef. cbn [negb lift].
          eapply bind_step; [reflexivity |].
          eapply bind_step; [reflexivity |].
          eapply bind_step; [exact E0 |].
          eapply bind_step; [reflexivity |].
          eapply bind_step; [reflexivity |].
          reflexivity. }
        rewrite Eq. unfold result_of. cbn [fst]. intros [= <- <-].
        destruct la as [| x |], lo as [| y |]; try discriminate.
        now exists x, y.
      * eassert (Eq : run_startup cfg senv m = _).
        { unfold run_startup.
          eapply bind_step; [reflexivity |].
          eapply bind_step; [exact E |].
          cbn [fst snd]. rewrite Ht, Ef. cbn [negb lift].
          apply bind_raise. reflexivity. }
        rewrite Eq. discriminate.
    + eassert (Eq : run_startup cfg senv m = _).
      { unfold run_startup.
        eapply bind_step; [reflexivity |].
        eapply bind_step; [exact E |].
        cbn [fst snd]. rewrite Ht. cbn [negb].
        eapply bind_step; [reflexivity |].
        reflexivity. }
      rewrite Eq. discriminate.
  - eassert (Eq : run_startup cfg senv m = _).
    { unfold run_startup.
      eapply bind_step; [reflexivity |].
      apply bind_raise. exact E. }
    rewrite Eq. discriminate.
Qed.

(** X13.  [run] enters its loop only with two numbers for the location, the
    latitude not 0; with such a location [get_sun_altitude] never returns
    [None] (it returns an altitude or raises), so the branch of the loop for
    a missing altitude, which sleeps and goes on, is never taken. *)
Theorem X13_loop_gets_numbers_only (get_altitude : Q -> Q -> Q -> outcome Q)
  (cfg : Config) (senv : StartEnv) (m : Mem) (lat lon : pyval) :
  result_of (run_startup cfg senv m) = Ok (Some (lat, lon)) ->
  exists x y,
    lat = PyNumber x /\ lon = PyNumber y /\ ~ x == 0
    /\ forall now m', result_of (get_sun_altitude get_altitude now lat lon m') <> Ok None.
Proof.
  intro H. destruct (run_startup_numbers cfg senv m lat lon H) as (x & y & -> & -> & Ht).
  exists x, y. split; [reflexivity |]. split; [reflexivity |]. split.
  - intro Hz. apply Qeq_bool_iff in Hz. unfold truthy in Ht. now rewrite Hz in Ht.
  - intros now m'.
    destruct (get_altitude x y now) as [alt | what] eqn:E.
    + now rewrite (get_sun_altitude_run get_altitude now x y alt m' E).
    + now rewrite (get_sun_altitude_fails get_altitude now x y what m' E).
Qed.

(** A witness of X13: the default configuration starts the loop at Poznan. *)
Lemma X13_loop_gets_numbers_only_witness :
  exists x y,
    PyNumber poznan_lat = PyNumber x /\ PyNumber poznan_lon = PyNumber y /\ ~ x == 0.
Proof.
  destruct (X13_loop_gets_numbers_only (sun_at 12) DEFAULT_CONFIG (start_reading (Some 50%Z))
              (init_mem DEFAULT_STATE) (PyNumber poznan_lat) (PyNumber poznan_lon) eq_refl)
    as (x & y & H1 & H2 & H3 & _).
  now exists x, y.
Defined.

(** ** Logging on the flat parts of the curve *)

Lemma Qabs_of_zero (x : Q) : x == 0 -> Qabs x <= 1.
Proof. intro H. rewrite H. cbn. lra. Qed.

(** X14.  When the sun is at or below [sun_down_alt] both at the time of the
    look-ahead and [log_before_change_minutes] later, or at or above
    [sun_high_alt] both times (the thresholds in order), the tick announces
    no brightness in the log, whatever the offset; the devices get their
    commands all the same. *)
Theorem X14_no_announcement_on_the_flat (get_altitude : Q -> Q -> Q -> outcome Q)
  (cfg : Config) (env : TickEnv) (lat lon alt a1 a2 : Q) (m : Mem) :
  get_altitude lat lon (env_now env) = Done alt ->
  get_altitude lat lon (env_now_soon env) = Done a1 ->
  get_altitude lat lon (env_now_soon env + log_before_change_minutes (system cfg) * 60)
  = Done a2 ->
  (a1 <= sun_down_alt (brightness cfg) /\ a2 <= sun_down_alt (brightness cfg))
  \/ (sun_down_alt (brightness cfg) < sun_high_alt (brightness cfg)
      /\ sun_high_alt (brightness cfg) <= a1 /\ sun_high_alt (brightness cfg) <= a2) ->
  let X := iteration get_altitude cfg env (PyNumber lat) (PyNumber lon) m in
  announcements (trace_of X) = []
  /\ List.length (commands (trace_of X)) = List.length (filter has_command (devices cfg)).
Proof.
  intros Halt H1 H2 Hflat X.
  destruct (iteration_effects get_altitude cfg env lat lon m) as (_ & Hc & _ & Ha).
  destruct (loop_body_run get_altitude cfg env lat lon alt m Halt)
    as (Hcmd & _ & _ & _ & _ & _ & _ & Hann & _).
  fold X in Hc, Ha. rewrite Hc, Ha, Hcmd, Hann, H1, H2, length_map.
  split; [| reflexivity].
  assert (Hsoon : will_change_soon_spec cfg (user_offset (self_state m)) (Done a1) (Done a2)
                  = false).
  { unfold will_change_soon_spec. apply Qltb_ge, Qabs_of_zero.
    destruct Hflat as [[L1 L2] | (Hs & L1 & L2)].
    - rewrite (curve_low cfg a1 L1), (curve_low cfg a2 L2). ring.
    - rewrite (curve_high cfg a1 Hs L1), (curve_high cfg a2 Hs L2). ring. }
  now rewrite Hsoon.
Qed.

(** A witness of X14: the default configuration at night, the sun 10 degrees
    below the horizon. *)
Lemma X14_no_announcement_on_the_flat_witness :
  announcements
    (trace_of (iteration (sun_at (-10)) DEFAULT_CONFIG (tick_reading 1)
                 (PyNumber poznan_lat) (PyNumber poznan_lon) (init_mem DEFAULT_STATE)))
  = [].
Proof.
  assert (H : (-10 <= sun_down_alt (brightness DEFAULT_CONFIG)
               /\ -10 <= sun_down_alt (brightness DEFAULT_CONFIG))
              \/ (sun_down_alt (brightness DEFAULT_CONFIG)
                  < sun_high_alt (brightness DEFAULT_CONFIG)
                  /\ sun_high_alt (brightness DEFAULT_CONFIG) <= -10
                  /\ sun_high_alt (brightness DEFAULT_CONFIG) <= -10)).
  { left. split; vm_compute; intro H; discriminate H. }
  exact (proj1 (X14_no_announcement_on_the_flat (sun_at (-10)) DEFAULT_CONFIG
                  (tick_reading 1) poznan_lat poznan_lon (-10) (-10) (-10)
                  (init_mem DEFAULT_STATE) eq_refl eq_refl eq_refl H)).
Defined.

(** ** [set_offset] and ticks without devices *)

(** X15.  [set_offset] never raises and always returns [True].  The offset in
    memory is the new one and [last_brightness] is kept, also when the state
    file cannot be written: the failure is logged as an error, and the change
    of offset is logged after it. *)
Theorem X15_set_offset_survives_a_failed_save (save : outcome unit) (new_offset : Q)
  (m : Mem) :
  let X := set_offset save new_offset m in
  let st := {| user_offset := new_offset;
               last_brightness := last_brightness (self_state m) |} in
  result_of X = Ok true
  /\ mem_of X = with_state st m
  /\ trace_of X
     = SaveState st
       :: match save with
          | Done _ => []
          | Failed what => [Log ERROR (MsgSaveError what)]
          end
       ++ [Log INFO (MsgOffsetChanged (py_int (user_offset (self_state m)))
                       (py_int new_offset))].
Proof.
  intros X st. subst X st. destruct save as [[] | what]; repeat split.
Qed.

Lemma no_command_no_filter (devs : list Device) :
  (forall d, In d devs -> has_command d = false) -> filter has_command devs = [].
Proof.
  induction devs as [| d devs IH]; intro H; [reflexivity |].
  cbn [filter]. rewrite (H d (or_introl eq_refl)). apply IH.
  intros d' Hin. apply H. now right.
Qed.

Lemma no_command_all_written (write : Device -> outcome unit) (devs : list Device) :
  (forall d, In d devs -> has_command d = false) -> all_written write devs = true.
Proof.
  intro H. unfold all_written. apply forallb_forall. intros d Hin.
  now rewrite (H d Hin).
Qed.

(** X16.  With no device of a known type in the configuration (none at all,
    say) a tick sends no command and yet counts as a successful write: the
    baseline [last_set_brightness] and the [last_brightness] of the state move
    to the clamped percentage and the state is saved.  As nothing can be read
    back, the offset stays as it was. *)
Theorem X16_tick_without_devices (get_altitude : Q -> Q -> Q -> outcome Q)
  (cfg : Config) (env : TickEnv) (lat lon alt : Q) (m : Mem) :
  get_altitude lat lon (env_now env) = Done alt ->
  (forall d, In d (devices cfg) -> has_command d = false) ->
  let X := iteration get_altitude cfg env (PyNumber lat) (PyNumber lon) m in
  exists calculated,
    calculate_brightness_from_sun cfg alt = Ok calculated
    /\ let sent := clamp_percentage cfg (calculated + user_offset (self_state m)) in
       commands (trace_of X) = []
       /\ user_offset (self_state (mem_of X)) = user_offset (self_state m)
       /\ last_set_brightness (mem_of X) = sent
       /\ last_brightness (self_state (mem_of X)) = sent
       /\ saves (trace_of X) = [ {| user_offset := user_offset (self_state m);
                                    last_brightness := sent |} ].
Proof.
  intros Halt Hnone X.
  exists (BrightnessCurve_target cfg alt).
  split; [apply calculate_brightness_from_sun_total |].
  destruct (iteration_effects get_altitude cfg env lat lon m) as (Hm & Hc & Hs & _).
  destruct (loop_body_run get_altitude cfg env lat lon alt m Halt)
    as (Hcmd & Hoff & Hlb & Hls & _ & _ & _ & _ & Hsaves & _).
  fold X in Hm, Hc, Hs. cbv zeta.
  rewrite Hm, Hc, Hs, Hcmd, Hoff, Hlb, Hls, Hsaves.
  rewrite (no_command_no_filter _ Hnone), (no_command_all_written _ _ Hnone).
  assert (Hread : readback cfg (env_read env) = None).
  { unfold readback. destruct (devices cfg) as [| d ds]; [reflexivity |].
    now rewrite (Hnone d (or_introl eq_refl)). }
  rewrite Hread. unfold tick_offset, drift_detected. rewrite andb_false_r.
  repeat split.
Qed.

(** A witness of X16: the default configuration with its devices removed, the
    sun high: nothing is sent, the baseline moves from 50 to 100. *)
Lemma X16_tick_without_devices_witness :
  let X := iteration (sun_at 45) (with_devices [] DEFAULT_CONFIG) (tick_reading 50)
             (PyNumber poznan_lat) (PyNumber poznan_lon) after_setting_50 in
  commands (trace_of X) = [] /\ last_set_brightness (mem_of X) == 100.
Proof.
  intro X.
  assert (H : forall d, In d (devices (with_devices [] DEFAULT_CONFIG)) ->
                        has_command d = false) by (intros d []).
  destruct (X16_tick_without_devices (sun_at 45) (with_devices [] DEFAULT_CONFIG)
              (tick_reading 50) poznan_lat poznan_lon 45 after_setting_50 eq_refl H)
    as (calculated & Hcalc & Hc & _ & Hls & _).
  fold X in Hc, Hls. split; [exact Hc |]. rewrite Hls.
  injection Hcalc as <-. reflexivity.
Defined.

(** ** Looking the location up *)

(** X17.  With automatic location a GeoClue answer with a latitude other than
    0 is the location, and the IP lookup is not consulted; a GeoClue answer
    with latitude 0 is discarded like a failure, and the location is what the
    IP lookup says. *)
Theorem X17_geoclue_on_the_equator_is_discarded (cfg : Config) (senv : StartEnv)
  (m : Mem) (la lo x y : Q) (g : GeoResponse) :
  use_auto_location (location cfg) = true ->
  senv_geoclue senv = Done (Some (la, lo)) ->
  senv_geocoder senv = Done g -> ok g = true -> latlng g = [x; y] ->
  (~ la == 0 ->
   get_location cfg senv m
   = (Ok (PyNumber la, PyNumber lo), m, [Log INFO MsgGeoclueAttempt]))
  /\ (la == 0 ->
      get_location cfg senv m
      = (Ok (PyNumber x, PyNumber y), m,
         [Log INFO MsgGeoclueAttempt; Log WARN MsgGeoclueUnavailable])).
Proof.
  intros Hauto Hgeo Hip Hok Hll.
  unfold get_location. rewrite Hauto. cbn [negb].
  unfold get_location_geoclue, get_location_ip, try_except, bind, call, lift, ret, raise,
    log_message, emit, py_index.
  rewrite Hgeo, Hip, Hok, Hll. cbn. unfold truthy. split; intro H.
  - destruct (Qeq_bool la 0) eqn:E; [| reflexivity].
    apply Qeq_bool_iff in E. contradiction.
  - apply Qeq_bool_iff in H. now rewrite H.
Qed.

(** A witness of X17: GeoClue places the machine on the equator, the IP lookup
    in Poznan. *)
Lemma X17_geoclue_on_the_equator_is_discarded_witness :
  let senv := {| senv_geoclue := Done (Some (0, 9));
                 senv_geocoder := Done {| ok := true; latlng := [poznan_lat; poznan_lon] |};
                 senv_read := Done (Some 50%Z) |} in
  result_of (get_location (auto_located DEFAULT_CONFIG) senv (init_mem DEFAULT_STATE))
  = Ok (PyNumber poznan_lat, PyNumber poznan_lon).
Proof.
  intro senv.
  destruct (X17_geoclue_on_the_equator_is_discarded (auto_located DEFAULT_CONFIG) senv
              (init_mem DEFAULT_STATE) 0 9 poznan_lat poznan_lon
              {| ok := true; latlng := [poznan_lat; poznan_lon] |}
              eq_refl eq_refl eq_refl eq_refl eq_refl) as (_ & H).
  now rewrite (H eq_refl).
Defined.

(** X18.  In [get_location_ip] only the longitude depends on [g.ok]: an
    answer that is not [ok] and still carries a latitude gives that latitude
    with the tuple [(None, None)] for a longitude.  When GeoClue gave nothing
    and that latitude is not 0, [run] then fails on formatting the location
    with [TypeError], before the first tick. *)
Theorem X18_ip_answer_not_ok_crashes_run (get_altitude : Q -> Q -> Q -> outcome Q)
  (cfg : Config) (senv : StartEnv) (envs : list TickEnv) (m : Mem)
  (g : GeoResponse) (x : Q) (rest : list Q) :
  use_auto_location (location cfg) = true ->
  (forall pair, senv_geoclue senv <> Done (Some pair)) ->
  senv_geocoder senv = Done g -> ok g = false -> latlng g = x :: rest ->
  ~ x == 0 ->
  result_of (get_location_ip senv m) = Ok (PyNumber x, PyNoneNone)
  /\ run get_altitude cfg senv envs m
     = (Raise (Exception "TypeError"), m,
        [Log INFO (MsgDevices (map dev_name (devices cfg)));
         Log INFO MsgGeoclueAttempt;
         Log WARN MsgGeoclueUnavailable]).
Proof.
  intros Hauto Hgeo Hip Hok Hll Hnz.
  assert (Eip : get_location_ip senv m = (Ok (PyNumber x, PyNoneNone), m, [])).
  { unfold get_location_ip, try_except, bind, call, lift, ret, py_index.
    rewrite Hip, Hok, Hll. reflexivity. }
  split; [now rewrite Eip |].
  eassert (Hloc : get_location cfg senv m = _).
  { unfold get_location. rewrite Hauto. cbn [negb].
    assert (Eg : get_location_geoclue senv m = (Ok (PyNone, PyNone), m, [])).
    { unfold get_location_geoclue, try_except, bind, call, ret, raise.
      destruct (senv_geoclue senv) as [[pair |] | w] eqn:Eg;
        [exfalso; now apply (Hgeo pair) | reflexivity | reflexivity]. }
    eapply bind_step; [reflexivity |].
    eapply bind_step; [exact Eg |].
    cbn [fst truthy_val negb].
    eapply bind_step; [reflexivity |].
    exact Eip. }
  assert (Ht : truthy x = true).
  { unfold truthy. destruct (Qeq_bool x 0) eqn:E; [| reflexivity].
    apply Qeq_bool_iff in E. contradiction. }
  assert (Hlon : forall y, PyNoneNone <> PyNumber y) by discriminate.
  rewrite (run_raises_on_format get_altitude cfg senv envs m m x PyNoneNone _
             Hloc Ht Hlon).
  reflexivity.
Qed.

(** A witness of X18: GeoClue out of order, the IP lookup not [ok] yet with
    coordinates. *)
Lemma X18_ip_answer_not_ok_crashes_run_witness :
  let senv := {| senv_geoclue := Failed "where-am-i";
                 senv_geocoder := Done {| ok := false; latlng := [poznan_lat; poznan_lon] |};
                 senv_read := Done (Some 50%Z) |} in
  result_of (run (sun_at 12) (auto_located DEFAULT_CONFIG) senv [tick_reading 50]
               (init_mem DEFAULT_STATE))
  = Raise (Exception "TypeError").
Proof.
  intro senv.
  assert (H1 : forall pair : Q * Q, senv_geoclue senv <> Done (Some pair)) by discriminate.
  assert (Hnz : ~ poznan_lat == 0) by (vm_compute; intro H; discriminate H).
  destruct (X18_ip_answer_not_ok_crashes_run (sun_at 12) (auto_located DEFAULT_CONFIG) senv
              [tick_reading 50] (init_mem DEFAULT_STATE)
              {| ok := false; latlng := [poznan_lat; poznan_lon] |} poznan_lat [poznan_lon]
              eq_refl H1 eq_refl eq_refl eq_refl Hnz) as (_ & H).
  now rewrite H.
Defined.

(** ** Devices the program cannot read, intervals it cannot sleep *)

(** X19.  Only the first device is read back.  When it is of an unknown type
    the detector never sees a brightness: the offset stays as it was on every
    tick, whatever the other devices, which get their commands as usual. *)
Theorem X19_unknown_first_device_blinds_detector
  (get_altitude : Q -> Q -> Q -> outcome Q) (cfg : Config) (env : TickEnv)
  (lat lon alt : Q) (m : Mem) (d : Device) (rest : list Device) :
  get_altitude lat lon (env_now env) = Done alt ->
  devices cfg = d :: rest ->
  has_command d = false ->
  let X := iteration get_altitude cfg env (PyNumber lat) (PyNumber lon) m in
  get_current_brightness cfg (env_read env) m = (Ok None, m, [])
  /\ user_offset (self_state (mem_of X)) = user_offset (self_state m)
  /\ List.length (commands (trace_of X)) = List.length (filter has_command rest).
Proof.
  intros Halt Hdev Hcmd X.
  assert (Hread : get_current_brightness cfg (env_read env) m = (Ok None, m, [])).
  { unfold get_current_brightness. rewrite Hdev.
    unfold has_command in Hcmd. apply orb_false_iff in Hcmd. destruct Hcmd as [H1 H2].
    unfold try_except_Exception. now rewrite H1, H2. }
  split; [exact Hread |].
  assert (Hrb : readback cfg (env_read env) = None).
  { apply (readback_of_result cfg (env_read env) m). now rewrite Hread. }
  destruct (iteration_effects get_altitude cfg env lat lon m) as (Hm & Hc & _).
  destruct (loop_body_run get_altitude cfg env lat lon alt m Halt) as (Hcs & Hoff & _).
  fold X in Hm, Hc. rewrite Hm, Hc, Hcs, Hoff, Hrb, Hdev, length_map.
  cbn [filter]. rewrite Hcmd. split; reflexivity.
Qed.

(** A witness of X19: a first device of type "tablet" before the two devices
    of the default configuration; the readback of 90 goes unnoticed. *)
Lemma X19_unknown_first_device_blinds_detector_witness :
  let tablet := {| dev_type := "tablet"; dev_id := None; dev_name := "Tablet" |} in
  let cfg := with_devices (tablet :: devices DEFAULT_CONFIG) DEFAULT_CONFIG in
  let X := iteration (sun_at 12) cfg (tick_reading 90)
             (PyNumber poznan_lat) (PyNumber poznan_lon) after_setting_50 in
  user_offset (self_state (mem_of X)) = 0
  /\ List.length (commands (trace_of X)) = 2%nat.
Proof.
  intros tablet cfg X.
  destruct (X19_unknown_first_device_blinds_detector (sun_at 12) cfg (tick_reading 90)
              poznan_lat poznan_lon 12 after_setting_50 tablet (devices DEFAULT_CONFIG)
              eq_refl eq_refl eq_refl) as (_ & H1 & H2).
  split; [exact H1 | exact H2].
Defined.

(** X20.  With a negative [update_interval] a tick with the altitude available
    does all its work (commands sent, state recorded, first tick over) and
    then fails on [time.sleep], which raises [ValueError]: the iteration logs
    an unexpected error and sleeps 60 seconds instead. *)
Theorem X20_negative_interval_polls_every_minute
  (get_altitude : Q -> Q -> Q -> outcome Q) (cfg : Config) (env : TickEnv)
  (lat lon alt : Q) (m : Mem) :
  get_altitude lat lon (env_now env) = Done alt ->
  update_interval (system cfg) < 0 ->
  let B := loop_body get_altitude cfg env (PyNumber lat) (PyNumber lon) m in
  let X := iteration get_altitude cfg env (PyNumber lat) (PyNumber lon) m in
  result_of B = Raise (Exception "ValueError")
  /\ trace_of X = trace_of B ++ [Log ERROR (MsgUnexpected "ValueError"); Sleep 60]
  /\ sleeps (trace_of X) = [60]
  /\ List.length (commands (trace_of X)) = List.length (filter has_command (devices cfg))
  /\ is_first_run (mem_of X) = false.
Proof.
  intros Halt Hneg B X.
  destruct (iteration_run get_altitude cfg env lat lon m) as (_ & Hm & Ht).
  destruct (iteration_effects get_altitude cfg env lat lon m) as (_ & Hc & _).
  destruct (loop_body_run get_altitude cfg env lat lon alt m Halt)
    as (Hcs & _ & _ & _ & _ & Hfr & _ & _ & _ & Hres).
  fold B in Hm, Ht, Hc, Hcs, Hfr, Hres. fold X in Hm, Ht, Hc.
  apply Qltb_lt in Hneg. rewrite Hneg in Hres. destruct Hres as [Hr Hs].
  rewrite Hr in Ht.
  split; [exact Hr |]. split; [exact Ht |].
  rewrite Hc, Hcs, Hm, Hfr, length_map, Ht, sleeps_app, Hs. repeat split.
Qed.

(** A witness of X20: the default configuration with an interval of -5. *)
Lemma X20_negative_interval_polls_every_minute_witness :
  sleeps (trace_of (iteration (sun_at 12) (with_update_interval (-5) DEFAULT_CONFIG)
                      (tick_reading 50) (PyNumber poznan_lat) (PyNumber poznan_lon)
                      after_setting_50))
  = [60].
Proof.
  destruct (X20_negative_interval_polls_every_minute (sun_at 12)
              (with_update_interval (-5) DEFAULT_CONFIG) (tick_reading 50)
              poznan_lat poznan_lon 12 after_setting_50 eq_refl eq_refl)
    as (_ & _ & H & _).
  exact H.
Defined.
